(** * Server-lifecycle supervision of actions.py

    A shallow embedding of the functions of [actions.py] that start and stop
    the action server, of the port allocator they use and of
    [run_shell_command].

    The Python code talks to the operating system, to a child process and to
    an HTTP endpoint.  What the outside answers is collected in a record
    [World]; what the code does to the outside is recorded, in order, in a
    trace of [event]s.  Each function is a computation in a small monad that
    threads the trace and two read counters (clock readings, log polls), and
    that ends in a returned value, a raised exception, or an exhausted fuel
    (the two [while True] loops recurse on a fuel).

    The last part covers further actions of the file: those that return the
    value of [_run], [open_action_code], and the actions that write and read
    the files of a package, over a disk that maps a path to the text written
    there.

    Left out: the [print] calls, which write diagnostics to the console and
    change neither a returned value nor a later call.  The outcomes of a call
    into the outside are those the source tells apart ([bind]: bound, or
    [socket.error]; the POST: a response, or [ConnectionError]), and two that
    the libraries add: [bind] rejects a number that is not a port with
    [OverflowError], as the socket module does, and the POST to an address on
    which nothing listens ends in urllib3's [MaxRetryError].  POSIX path joining is modelled ([posixpath.join]). *)

From Stdlib Require Import ZArith QArith List String Ascii Bool Lia.
From Stdlib Require Import DecimalString.
Import ListNotations.

Local Open Scope string_scope.
Local Open Scope Z_scope.

(** ** Strings *)

(** The character [\n]. *)
Definition nl : string := String (ascii_of_nat 10) EmptyString.

(** Python's [needle in hay] on strings. *)
Fixpoint str_in (needle hay : string) : bool :=
  String.prefix needle hay ||
  match hay with
  | EmptyString => false
  | String _ rest => str_in needle rest
  end.

(** Python's [str(n)] on an integer. *)
Definition str_of_int (n : Z) : string :=
  NilZero.string_of_int (Z.to_int n).

(** Python's [s.endswith("/")]. *)
Fixpoint endswith_sep (s : string) : bool :=
  match s with
  | EmptyString => false
  | String c EmptyString => Ascii.eqb c "/"
  | String _ rest => endswith_sep rest
  end.

(** One step of [posixpath.join]: an absolute component replaces what was
    joined so far; a separator is added unless the path is empty or already
    ends with one. *)
Definition os_path_join (path b : string) : string :=
  if String.prefix "/" b then b
  else if (String.eqb path "" || endswith_sep path)%bool then path ++ b
  else path ++ "/" ++ b.

(** ** The outside *)

(** The exception classes the source names, the one [bind] raises on a
    number outside 0..65535, and the one a POST raises when no connection
    can be made.  [ConnectionError] is the class the source imports,
    [urllib3.exceptions.ConnectionError], a name of [ProtocolError];
    [MaxRetryError] is not a subclass of it. *)
Inductive exn : Type :=
| ConnectionError
| CalledProcessError
| SocketError
| OverflowError
| MaxRetryError.

(** What [sema4ai_http.post] comes to: a response (status code, body); a
    connection that breaks while the request is made, which raises the
    [ConnectionError] of urllib3; or no connection at all (nothing listens
    at the address, the connection is refused), which raises
    [MaxRetryError]. *)
Inductive post_outcome : Type :=
| Responded (status_code : Z) (text : string)
| ConnectionFailed
| Unreachable.

(** [subprocess.CompletedProcess] with captured text output. *)
Record CompletedProcess : Type := mkCompleted {
  returncode : Z;
  stdout : string;
  stderr : string
}.

Record World : Type := mkWorld {
  (** [os.path.expanduser("~")] *)
  home_directory : string;
  (** [os.path.exists] *)
  path_exists : string -> bool;
  (** whether binding 127.0.0.1 at this port succeeds (ports 0..65535) *)
  port_free : Z -> bool;
  (** [sys.executable] *)
  sys_executable : string;
  (** [str(Path(__file__).parent / "start_action_server.py")] *)
  script_path : string;
  (** [os.name] *)
  os_name : string;
  (** the n-th reading of [time.time()], in seconds *)
  clock : nat -> Q;
  (** the lines of [Path(dir) / "action_server.log"] at the n-th poll, as
      [readlines] gives them; [None] when the file does not exist *)
  log_file : string -> nat -> option (list string);
  (** [process.stdout.read().decode()] and [process.stderr.read().decode()] *)
  child_stdout : string;
  child_stderr : string;
  (** [sema4ai_http.post] at a URL *)
  http_post : string -> post_outcome;
  (** [subprocess.run(cmd, capture_output=True, text=True, cwd=cwd)] *)
  subprocess_run : list string -> option string -> CompletedProcess
}.

(** What the code does to the outside. *)
Inductive event : Type :=
| EvPathExists (path : string)
| EvBind (port : Z)
| EvPopen (argv : list string) (creationflags : Z)
| EvTime
| EvSleep
| EvReadLog (dir : string)
| EvReadStdout
| EvReadStderr
| EvPost (url : string) (headers : list (string * string))
| EvRun (cmd : list string) (cwd : option string).

(** ** The monad *)

Record St : Type := mkSt {
  clock_reads : nat;
  log_reads : nat;
  trace : list event
}.

Definition st0 : St := mkSt 0 0 [].

Inductive res (A : Type) : Type :=
| Ret (a : A) (s : St)
| Exc (e : exn) (s : St)
| OutOfFuel.

Arguments Ret {A} a s.
Arguments Exc {A} e s.
Arguments OutOfFuel {A}.

Definition M (A : Type) : Type := St -> res A.

Definition ret {A} (a : A) : M A := fun s => Ret a s.

Definition raise {A} (e : exn) : M A := fun s => Exc e s.

Definition out_of_fuel {A} : M A := fun _ => OutOfFuel.

Definition bind {A B} (m : M A) (k : A -> M B) : M B :=
  fun s =>
    match m s with
    | Ret a s' => k a s'
    | Exc e s' => Exc e s'
    | OutOfFuel => OutOfFuel
    end.

(** [try: m  except cls: h] *)
Definition try_except {A} (m : M A) (cls : exn -> bool) (h : M A) : M A :=
  fun s =>
    match m s with
    | Exc e s' => if cls e then h s' else Exc e s'
    | r => r
    end.

Declare Scope py_scope.
Delimit Scope py_scope with py.
Notation "x <- m ;; k" := (bind m (fun x => k))
  (at level 100, m at next level, right associativity) : py_scope.
Notation "m ;; k" := (bind m (fun _ => k))
  (at level 100, right associativity) : py_scope.
Local Open Scope py_scope.

Definition emit (e : event) (s : St) : St :=
  mkSt (clock_reads s) (log_reads s) (trace s ++ [e]).

Definition is_socket_error (e : exn) : bool :=
  match e with SocketError => true | _ => false end.

Definition is_connection_error (e : exn) : bool :=
  match e with ConnectionError => true | _ => false end.

Definition is_called_process_error (e : exn) : bool :=
  match e with CalledProcessError => true | _ => false end.

Section Actions.

Variable w : World.

(** *** Calls into the outside *)

Definition os_path_exists (path : string) : M bool :=
  fun s => Ret (path_exists w path) (emit (EvPathExists path) s).

(** [s.bind(("127.0.0.1", port))] on a fresh socket, released on leaving the
    [with] block.  A number outside 0..65535 is refused before any system
    call, with [OverflowError] ("bind(): port must be 0-65535"), which is not
    a [socket.error]; on a port number the bind succeeds or fails with
    [socket.error] ([OSError]). *)
Definition socket_bind (port : Z) : M unit :=
  fun s =>
    let s' := emit (EvBind port) s in
    if ((port <? 0) || (65535 <? port))%bool then Exc OverflowError s'
    else if port_free w port then Ret tt s'
    else Exc SocketError s'.

Definition subprocess_Popen (argv : list string) (creationflags : Z) : M unit :=
  fun s => Ret tt (emit (EvPopen argv creationflags) s).

Definition time_time : M Q :=
  fun s =>
    Ret (clock w (clock_reads s))
        (mkSt (S (clock_reads s)) (log_reads s) (trace s ++ [EvTime])).

Definition time_sleep : M unit :=
  fun s => Ret tt (emit EvSleep s).

(** [log_path.exists()] followed by [open(log_path).readlines()]. *)
Definition read_log (dir : string) : M (option (list string)) :=
  fun s =>
    Ret (log_file w dir (log_reads s))
        (mkSt (clock_reads s) (S (log_reads s)) (trace s ++ [EvReadLog dir])).

(** [process.stdout.read().decode() if process.stdout else ""]: the child is
    started with [stdout=PIPE] and [stderr=PIPE], so both attributes are pipe
    objects, which are true, and the reads always happen. *)
Definition process_stdout_read : M string :=
  fun s => Ret (child_stdout w) (emit EvReadStdout s).

Definition process_stderr_read : M string :=
  fun s => Ret (child_stderr w) (emit EvReadStderr s).

Definition sema4ai_http_post (url : string) (headers : list (string * string))
  : M (Z * string) :=
  fun s =>
    let s' := emit (EvPost url headers) s in
    match http_post w url with
    | Responded code text => Ret (code, text) s'
    | ConnectionFailed => Exc ConnectionError s'
    | Unreachable => Exc MaxRetryError s'
    end.

(** [result.check_returncode()] *)
Definition check_returncode (r : CompletedProcess) : M unit :=
  if returncode r =? 0 then ret tt else raise CalledProcessError.

(** *** find_available_port *)

Fixpoint find_available_port (fuel : nat) (port : Z) : M Z :=
  match fuel with
  | O => out_of_fuel
  | S fuel' =>
      try_except
        (socket_bind port ;; ret port)
        is_socket_error
        (find_available_port fuel' (port + 1))
  end.

(** *** get_action_package_path *)

Definition get_action_package_path (action_package_name : string) : string :=
  let new_action_package_path :=
    os_path_join (home_directory w) "actions_bootstrapper" in
  os_path_join new_action_package_path action_package_name.

(** *** stop_action_server *)

Definition stop_action_server (action_server_url : string) : M string :=
  let headers := [("Content-Type", "application/json")] in
  r <- try_except
         (response <- sema4ai_http_post
                        (action_server_url ++ "/api/shutdown") headers ;;
          ret (inl response))
         is_connection_error
         (ret (inr "Could not connect to the server")) ;;
  match r with
  | inr message => ret message
  | inl (status_code, _) =>
      if status_code =? 200
      then ret "Successfully shutdown the action server"
      else ret "Failed to stop the action server"
  end.

(** *** start_action_server *)

Definition error_marker : string := "Error executing action-server".

Definition not_exist_message (full_action_path : string) : string :=
  "Action package '" ++ full_action_path ++ "' does not exist.".

Definition started_message (url : string) : string :=
  "Action Server started at " ++ url.

Definition failed_message (stdout_content stderr_content : string) : string :=
  "Failed to start." ++ nl ++ nl ++ "Stdout:" ++ nl ++ stdout_content
  ++ nl ++ nl ++ "Stderr:" ++ nl ++ stderr_content.

Definition timed_out_message (stdout_content stderr_content : string) : string :=
  "Process timed out." ++ nl ++ nl ++ "Stdout:" ++ nl ++ stdout_content
  ++ nl ++ nl ++ "Stderr:" ++ nl ++ stderr_content.

(** [subprocess.CREATE_NEW_PROCESS_GROUP] *)
Definition CREATE_NEW_PROCESS_GROUP : Z := 512.

(** The [for line in lines] loop: [Some message] when an iteration returns
    from the function, [None] when the loop runs to its end. *)
Fixpoint scan_lines (url : string) (lines : list string) : M (option string) :=
  match lines with
  | [] => ret None
  | line :: rest =>
      if str_in url line then ret (Some (started_message url))
      else if str_in error_marker line then
        stdout_content <- process_stdout_read ;;
        stderr_content <- process_stderr_read ;;
        ret (Some (failed_message stdout_content stderr_content))
      else scan_lines url rest
  end.

(** [time.time() - start_time > timeout] *)
Definition elapsed_gt (now start_time timeout : Q) : bool :=
  negb (Qle_bool (now - start_time) timeout).

(** The [while True] loop of [start_action_server]. *)
Fixpoint poll_loop (fuel : nat) (timeout start_time : Q) (url dir : string)
  : M string :=
  match fuel with
  | O => out_of_fuel
  | S fuel' =>
      now <- time_time ;;
      if elapsed_gt now start_time timeout then
        stop_action_server url ;;
        stdout_content <- process_stdout_read ;;
        stderr_content <- process_stderr_read ;;
        ret (timed_out_message stdout_content stderr_content)
      else
        log <- read_log dir ;;
        found <- match log with
                 | Some lines => scan_lines url lines
                 | None => ret None
                 end ;;
        match found with
        | Some message => ret message
        | None => time_sleep ;; poll_loop fuel' timeout start_time url dir
        end
  end.

Definition base_url (port : Z) : string :=
  "http://localhost:" ++ str_of_int port.

Definition start_command (full_action_path : string) (available_port : Z)
    (secrets : string) : list string :=
  [ sys_executable w; script_path w; full_action_path;
    str_of_int available_port; secrets ].

Definition start_action_server (fuel : nat)
    (action_package_name secrets : string) : M string :=
  let full_action_path := get_action_package_path action_package_name in
  present <- os_path_exists full_action_path ;;
  if negb present then ret (not_exist_message full_action_path)
  else
    let start_port := 8080 in
    available_port <- find_available_port fuel start_port ;;
    subprocess_Popen
      (start_command full_action_path available_port secrets)
      (if String.eqb (os_name w) "nt" then CREATE_NEW_PROCESS_GROUP else 0) ;;
    let timeout := 60%Q in
    start_time <- time_time ;;
    let url := base_url available_port in
    time_sleep ;;
    poll_loop fuel timeout start_time url full_action_path.

(** *** run_shell_command *)

(** [sema4ai.actions.Response] *)
Record Response : Type := mkResponse {
  result : option string;
  error : option string
}.

Definition run_process (cmd : list string) (cwd : option string)
  : M CompletedProcess :=
  fun s => Ret (subprocess_run w cmd cwd) (emit (EvRun cmd cwd) s).

Definition run_shell_command (cmd : list string) (cwd : option string)
  : M Response :=
  result <- run_process cmd cwd ;;
  let output :=
    if negb (String.eqb (stderr result) "")
    then stdout result ++ stderr result
    else stdout result in
  try_except (check_returncode result) is_called_process_error (ret tt) ;;
  ret (mkResponse (Some output) None).

End Actions.

(** ** Sample worlds *)

(** A world in which the package directory exists or not, the ports that
    [free] accepts can be bound, the clock advances by [step] seconds between
    two readings, and the log file and the shutdown endpoint are as given. *)
Definition make_world (present : bool) (free : Z -> bool) (step : Z)
    (log : nat -> option (list string)) (post : post_outcome) : World :=
  mkWorld "/home/u"
          (fun _ => present)
          free
          "/usr/bin/python3" "/app/start_action_server.py" "posix"
          (fun n => inject_Z (step * Z.of_nat n))
          (fun _ => log)
          "out" "err"
          (fun _ => post)
          (fun _ _ => mkCompleted 1 "a" "b").

(** The server comes up on port 8082 and says so at the third poll. *)
Definition sample_world : World :=
  make_world true (fun p => 8082 <=? p) 1
    (fun n => match n with
              | O => None
              | 1%nat => Some ["starting" ++ nl]
              | _ => Some ["starting" ++ nl;
                           "Action Server running at http://localhost:8082" ++ nl]
              end)
    ConnectionFailed.

(** The log reports an error, and the URL only after it. *)
Definition failing_world : World :=
  make_world true (fun _ => true) 1
    (fun _ => Some ["starting" ++ nl;
                    "Error executing action-server: exit 1" ++ nl;
                    "Action Server running at http://localhost:8080" ++ nl])
    ConnectionFailed.

(** One line carries the error marker and the URL. *)
Definition mixed_world : World :=
  make_world true (fun _ => true) 1
    (fun _ => Some ["starting" ++ nl;
                    "Error executing action-server at http://localhost:8080" ++ nl])
    ConnectionFailed.

(** The log never appears and the clock advances by 40 seconds a reading. *)
Definition silent_world : World :=
  make_world true (fun _ => true) 40 (fun _ => None) ConnectionFailed.

(** The same, with nothing listening at the address of the server. *)
Definition unreachable_world : World :=
  make_world true (fun _ => true) 40 (fun _ => None) Unreachable.

(** The package directory is missing. *)
Definition empty_world : World :=
  make_world false (fun _ => true) 1 (fun _ => None) ConnectionFailed.

(** No port can be bound. *)
Definition crowded_world : World :=
  make_world true (fun _ => false) 1 (fun _ => None) ConnectionFailed.

(** The shutdown endpoint answers with the given status. *)
Definition answering_world (status_code : Z) : World :=
  make_world true (fun _ => true) 1 (fun _ => None) (Responded status_code "").

(** ** The port allocator *)

Definition is_port (n : Z) : Prop := 0 <= n <= 65535.

(** [p] is the first free port from [start] on. *)
Definition least_free (w : World) (start p : Z) : Prop :=
  start <= p <= 65535 /\
  port_free w p = true /\
  forall q, start <= q < p -> port_free w q = false.

(** The bind attempts on [start], [start + 1], ..., [n] of them. *)
Fixpoint bind_events (start : Z) (n : nat) : list event :=
  match n with
  | O => []
  | S n' => EvBind start :: bind_events (start + 1) n'
  end.

Definition after_binds (s : St) (start : Z) (n : nat) : St :=
  mkSt (clock_reads s) (log_reads s) (trace s ++ bind_events start n).

(** ** The poller, seen from outside *)

Definition shutdown_headers : list (string * string) :=
  [("Content-Type", "application/json")].

(** How [stop_action_server] ends, by what the POST comes to. *)
Definition shutdown_result (o : post_outcome) (s : St) : res string :=
  match o with
  | ConnectionFailed => Ret "Could not connect to the server" s
  | Responded status_code _ =>
      if status_code =? 200
      then Ret "Successfully shutdown the action server" s
      else Ret "Failed to stop the action server" s
  | Unreachable => Exc MaxRetryError s
  end.

(** A line with neither marker. *)
Definition quiet_line (url line : string) : bool :=
  negb (str_in url line) && negb (str_in error_marker line).

Definition quiet_log (url : string) (log : option (list string)) : bool :=
  match log with
  | None => true
  | Some lines => forallb (quiet_line url) lines
  end.

(** In a run of [start_action_server] from [st0], the start time is clock
    reading 0, and iteration [j] of the loop takes clock reading [j + 1]
    and, when in time, log poll [j].  The iteration is quiet when it is in
    time and finds no marker: the loop sleeps and goes on. *)
Definition tick_quiet (w : World) (url dir : string) (j : nat) : bool :=
  negb (elapsed_gt (clock w (S j)) (clock w 0%nat) 60) &&
  quiet_log url (log_file w dir j).

(** The loop gets to iteration [k]: no earlier iteration has returned. *)
Definition reaches_tick (w : World) (url dir : string) (k : nat) : Prop :=
  forall j, (j < k)%nat -> tick_quiet w url dir j = true.

Definition spawn_flags (w : World) : Z :=
  if String.eqb (os_name w) "nt" then CREATE_NEW_PROCESS_GROUP else 0.

(** What a run has done when it enters the loop, having found port [p]. *)
Definition launch_events (w : World) (dir : string) (p : Z) (secrets : string)
  : list event :=
  EvPathExists dir :: bind_events 8080 (S (Z.to_nat (p - 8080)))
  ++ [EvPopen (start_command w dir p secrets) (spawn_flags w); EvTime; EvSleep].

(** What [k] quiet iterations do. *)
Fixpoint quiet_events (dir : string) (k : nat) : list event :=
  match k with
  | O => []
  | S k' => EvTime :: EvReadLog dir :: EvSleep :: quiet_events dir k'
  end.

Definition is_popen (e : event) : bool :=
  match e with EvPopen _ _ => true | _ => false end.

Definition is_post (e : event) : bool :=
  match e with EvPost _ _ => true | _ => false end.

(** ** Further actions

    The actions below run a command and hand back its output, open the
    editor on a package, or write and read the files of a package. *)

(** Why [subprocess.run] did not get to run a command: the executable is
    missing ([FileNotFoundError]), or another exception, with its [str]. *)
Inductive launch_failure : Type :=
| CommandNotFound
| LaunchError (text : string).

(** What [subprocess.run(command, check=True)] comes to: a zero exit status,
    a [CalledProcessError] with the status, or a failure to launch. *)
Inductive checked_outcome : Type :=
| Exited (status : Z)
| NotFound
| OtherException (text : string).

(** What [open(path, "r").read()] comes to: the text, or an exception with
    its [str]. *)
Inductive read_outcome : Type :=
| ReadText (text : string)
| ReadError (text : string).

Record Host : Type := mkHost {
  (** whether, and how, launching this command fails *)
  launch_failure_of : list string -> option launch_failure;
  (** whether [open(path, "w")] succeeds *)
  can_open_for_writing : string -> bool;
  (** reading a file that the functions below have not written *)
  read_initial : string -> read_outcome;
  (** [black.format_str(code, mode=black.FileMode())]; [None] when black
      raises *)
  black_format_str : string -> option string
}.

(** The text of the files written so far, by path; what [os.path.exists]
    says of the other paths is [path_exists] of the world. *)
Definition Disk : Type := string -> option string.

Definition no_writes : Disk := fun _ => None.

(** [f = open(path, "w"); f.write(text); f.close()] on a POSIX system, where
    text mode writes [\n] as it is. *)
Definition write_file (d : Disk) (path text : string) : Disk :=
  fun p => if String.eqb p path then Some text else d p.

Definition CR : ascii := ascii_of_nat 13.
Definition LF : ascii := ascii_of_nat 10.

(** What text mode reading does to line ends: [\r\n] and a lone [\r] are
    read as [\n]. *)
Fixpoint universal_newlines (s : string) : string :=
  match s with
  | EmptyString => EmptyString
  | String c rest =>
      if Ascii.eqb c CR then
        match rest with
        | String c' rest' =>
            if Ascii.eqb c' LF then String LF (universal_newlines rest')
            else String LF (universal_newlines rest)
        | EmptyString => String LF EmptyString
        end
      else String c (universal_newlines rest)
  end.

Definition has_CR (s : string) : bool := str_in (String CR EmptyString) s.

(** An exception that leaves an action that writes a file. *)
Inductive write_error : Type :=
| OpenFailed (path : string)
| FormatFailed.

Inductive written (A : Type) : Type :=
| Wrote (a : A) (d : Disk)
| WriteRaised (e : write_error) (d : Disk).

Arguments Wrote {A} a d.
Arguments WriteRaised {A} e d.

Section MoreActions.

Variable w : World.
Variable h : Host.

(** *** _run and the actions that return its value *)

Definition _run (cmd : list string) (cwd : option string) : M Response :=
  run_shell_command w cmd cwd.

Definition pull_template (repo_url directory : string) : M Response :=
  _run ["rcc"; "pull"; repo_url; "-d"; directory] None.

Definition run_robot (task_name robot_path : string) : M Response :=
  _run ["rcc"; "run"; "-r"; robot_path ++ "/robot.yaml"] None.

Definition task_testrun : M Response :=
  _run ["rcc"; "task"; "testrun"] None.

Definition unwrap_robot (artifact : string) : M Response :=
  _run ["rcc"; "robot"; "unwrap"; "--artifact"; artifact] None.

Definition script_in_robot (command : string) : M Response :=
  _run ["rcc"; "run"; "--"; command] None.

(** *** open_action_code *)

(** [subprocess.run(command, check=True)]; the exit status is that of
    [subprocess_run] on the command. *)
Definition subprocess_run_check (command : list string) : M checked_outcome :=
  fun s =>
    Ret match launch_failure_of h command with
        | Some CommandNotFound => NotFound
        | Some (LaunchError text) => OtherException text
        | None => Exited (returncode (subprocess_run w command None))
        end
        (emit (EvRun command None) s).

Definition opened_message (action_package_name : string) : string :=
  action_package_name ++ " code opened with VSCode.".

Definition open_action_code (action_package_name : string) : M string :=
  let full_action_path := get_action_package_path w action_package_name in
  present <- os_path_exists w full_action_path ;;
  if negb present then
    ret ("Error: Action package '" ++ action_package_name
         ++ "' does not exist at path " ++ full_action_path ++ ".")
  else
    let command := ["code"; full_action_path] in
    outcome <- subprocess_run_check command ;;
    match outcome with
    | Exited status =>
        if status =? 0 then ret (opened_message action_package_name)
        else
          ret ("Error: Failed to open the action package '"
               ++ action_package_name ++ "' with VSCode. "
               ++ "Subprocess returned non-zero exit status "
               ++ str_of_int status ++ ". "
               ++ "Ensure VSCode is installed and the 'code' command is available in your PATH.")
    | NotFound =>
        ret ("Error: 'code' command not found. "
             ++ "Ensure VSCode is installed and the 'code' command is available in your PATH.")
    | OtherException text =>
        ret ("Unexpected error: " ++ text ++ ". "
             ++ "Please check your setup and try again.")
    end.

(** *** The files of a package *)

(** [os.path.join(os.path.expanduser("~"), "actions_bootstrapper",
    action_package_name, file_name)] *)
Definition package_file_path (action_package_name file_name : string) : string :=
  os_path_join
    (os_path_join
       (os_path_join (home_directory w) "actions_bootstrapper")
       action_package_name)
    file_name.

Definition file_exists (d : Disk) (path : string) : bool :=
  match d path with
  | Some _ => true
  | None => path_exists w path
  end.

Definition read_file (d : Disk) (path : string) : read_outcome :=
  match d path with
  | Some text => ReadText (universal_newlines text)
  | None => read_initial h path
  end.

Definition update_action_package_dependencies
    (action_package_name action_package_dependencies_code : string) (d : Disk)
  : written Response :=
  let package_yaml_path :=
    package_file_path action_package_name "package.yaml" in
  if can_open_for_writing h package_yaml_path then
    Wrote (mkResponse
             (Some ("Successfully updated the package dependencies at: "
                    ++ package_yaml_path))
             None)
          (write_file d package_yaml_path action_package_dependencies_code)
  else WriteRaised (OpenFailed package_yaml_path) d.

Definition update_action_code (action_package_name action_code : string)
    (d : Disk) : written Response :=
  match black_format_str h action_code with
  | None => WriteRaised FormatFailed d
  | Some formatted_code =>
      let actions_py_path :=
        package_file_path action_package_name "actions.py" in
      if can_open_for_writing h actions_py_path then
        Wrote (mkResponse
                 (Some ("Successfully updated the actions at "
                        ++ actions_py_path))
                 None)
              (write_file d actions_py_path formatted_code)
      else WriteRaised (OpenFailed actions_py_path) d
  end.

(** [file_name] is ["actions.py"] when the caller gives none. *)
Definition get_file_contents (action_package_name file_name : string)
    (d : Disk) : Response :=
  let file_path := package_file_path action_package_name file_name in
  if negb (file_exists d file_path) then
    mkResponse None (Some ("File not found: " ++ file_path))
  else
    match read_file d file_path with
    | ReadText contents => mkResponse (Some contents) None
    | ReadError text => mkResponse None (Some ("Error reading file: " ++ text))
    end.

End MoreActions.

(** A host on which the editor is installed, every file can be written, and
    black leaves the code as it is. *)
Definition plain_host : Host :=
  mkHost (fun _ => None) (fun _ => true)
         (fun path => ReadError ("[Errno 2] No such file or directory: '"
                                 ++ path ++ "'"))
         (fun code => Some code).

(** A world in which the command exits with status 0. *)
Definition calm_world : World :=
  mkWorld "/home/u" (fun _ => true) (fun _ => true)
          "/usr/bin/python3" "/app/start_action_server.py" "posix"
          (fun n => inject_Z (Z.of_nat n)) (fun _ _ => None) "" ""
          (fun _ => ConnectionFailed) (fun _ _ => mkCompleted 0 "" "").

(** Where the run of [failing_world] on package [pkgA] ends. *)
Definition failing_run_end : St :=
  Eval vm_compute in
    match start_action_server failing_world 10 "pkgA" "{}" st0 with
    | Ret _ s => s
    | _ => st0
    end.

(** ** What a run of the poller has done *)

Definition is_drain (e : event) : bool :=
  match e with EvReadStdout | EvReadStderr => true | _ => false end.

(** The three ways in which a run of the loop returns. *)
Definition loop_outcome (w : World) (url : string) (before : list event)
    (message : string) (after : list event) : Prop :=
  (message = started_message url /\
   filter is_post after = filter is_post before /\
   filter is_drain after = filter is_drain before) \/
  (message = failed_message (child_stdout w) (child_stderr w) /\
   filter is_post after = filter is_post before /\
   filter is_drain after =
     (filter is_drain before ++ [EvReadStdout; EvReadStderr])%list) \/
  (message = timed_out_message (child_stdout w) (child_stderr w) /\
   filter is_post after =
     (filter is_post before
      ++ [EvPost (url ++ "/api/shutdown") shutdown_headers])%list /\
   filter is_drain after =
     (filter is_drain before ++ [EvReadStdout; EvReadStderr])%list).

(** ** Lemmas on the port allocator *)

Lemma after_binds_step s start n :
  after_binds (emit (EvBind start) s) (start + 1) n = after_binds s start (S n).
Proof.
  unfold after_binds, emit; simpl. now rewrite <- app_assoc.
Qed.

Lemma find_available_port_unfold w fuel port s :
  find_available_port w (S fuel) port s =
  let s' := emit (EvBind port) s in
  if ((port <? 0) || (65535 <? port))%bool then Exc OverflowError s'
  else if port_free w port then Ret port s'
  else find_available_port w fuel (port + 1) s'.
Proof.
  simpl. unfold try_except, bind, socket_bind, ret.
  destruct ((port <? 0) || (65535 <? port))%bool; [reflexivity|].
  destruct (port_free w port); reflexivity.
Qed.

(** The scan from [start], with [n] candidates left below 65536: it returns
    the first free port, or runs into 65536 and raises. *)
Lemma find_available_port_scan w :
  forall (n : nat) (start : Z) (fuel : nat) (s : St),
    0 <= start ->
    65536 - start = Z.of_nat n ->
    (n < fuel)%nat ->
    (exists p, least_free w start p /\
               find_available_port w fuel start s =
               Ret p (after_binds s start (S (Z.to_nat (p - start)))))
    \/
    ((forall q, start <= q <= 65535 -> port_free w q = false) /\
     find_available_port w fuel start s =
     Exc OverflowError (after_binds s start (S n))).
Proof.
  induction n as [|n IH]; intros start fuel s Hge Hn Hfuel.
  - right. split; [intros q Hq; lia|].
    destruct fuel as [|fuel]; [lia|].
    rewrite find_available_port_unfold. cbv zeta.
    replace (65535 <? start) with true by (symmetry; apply Z.ltb_lt; lia).
    rewrite orb_true_r. unfold after_binds, emit. reflexivity.
  - destruct fuel as [|fuel]; [lia|].
    rewrite find_available_port_unfold. cbv zeta.
    replace (start <? 0) with false by (symmetry; apply Z.ltb_ge; lia).
    replace (65535 <? start) with false by (symmetry; apply Z.ltb_ge; lia).
    simpl orb. cbv iota.
    destruct (port_free w start) eqn:Hfree.
    + left. exists start. split.
      * repeat split; try lia. assumption.
      * rewrite Z.sub_diag. reflexivity.
    + destruct (IH (start + 1) fuel (emit (EvBind start) s))
        as [(p & (Hr & Hp & Hlt) & Hrun) | [Hnone Hrun]]; try lia.
      * left. exists p. split.
        -- repeat split; try lia; [assumption|].
           intros q Hq. destruct (Z.eq_dec q start) as [->|]; [assumption|].
           apply Hlt; lia.
        -- rewrite Hrun, after_binds_step. do 2 f_equal.
           replace (p - start) with (Z.succ (p - (start + 1))) by lia.
           rewrite Z2Nat.inj_succ by lia. reflexivity.
      * right. split.
        -- intros q Hq. destruct (Z.eq_dec q start) as [->|]; [assumption|].
           apply Hnone; lia.
        -- rewrite Hrun, after_binds_step. reflexivity.
Qed.

Lemma least_free_unique w start p q :
  least_free w start p -> least_free w start q -> p = q.
Proof.
  intros (Hr1 & Hf1 & Hl1) (Hr2 & Hf2 & Hl2).
  destruct (Z.lt_trichotomy p q) as [H|[H|H]]; [|assumption|].
  - rewrite (Hl2 p) in Hf1 by lia. discriminate.
  - rewrite (Hl1 q) in Hf2 by lia. discriminate.
Qed.

(** With a free port in range the scan returns it, whatever fuel is left
    beyond the distance. *)
Lemma find_available_port_returns w start p fuel s :
  0 <= start ->
  least_free w start p ->
  (Z.to_nat (p - start) < fuel)%nat ->
  find_available_port w fuel start s =
  Ret p (after_binds s start (S (Z.to_nat (p - start)))).
Proof.
  revert start fuel s.
  assert (H : forall (n : nat) start fuel s,
             0 <= start -> least_free w start p ->
             Z.to_nat (p - start) = n -> (n < fuel)%nat ->
             find_available_port w fuel start s =
             Ret p (after_binds s start (S n))).
  { induction n as [|n IH]; intros start fuel s Hge (Hr & Hf & Hl) Hn Hfuel;
      (destruct fuel as [|fuel]; [lia|]);
      rewrite find_available_port_unfold; cbv zeta;
      replace (start <? 0) with false by (symmetry; apply Z.ltb_ge; lia);
      replace (65535 <? start) with false by (symmetry; apply Z.ltb_ge; lia);
      simpl orb; cbv iota.
    - assert (p = start) by lia. subst p. rewrite Hf. reflexivity.
    - rewrite (Hl start) by lia.
      rewrite (IH (start + 1) fuel); try lia.
      + now rewrite after_binds_step.
      + repeat split; try lia; [assumption|]. intros q Hq; apply Hl; lia. }
  intros start fuel s Hge Hleast Hfuel. now apply H.
Qed.

(** C5.  From a starting port number, [find_available_port] returns the
    smallest port at or above it that can be bound on the loopback
    interface: the starting port itself when it is free, and a strictly
    greater port, the least free one above it, when it is taken. *)
Theorem find_available_port_least w start p fuel s :
  is_port start ->
  least_free w start p ->
  (Z.to_nat (p - start) < fuel)%nat ->
  find_available_port w fuel start s =
    Ret p (after_binds s start (S (Z.to_nat (p - start)))) /\
  (port_free w start = true -> p = start) /\
  (port_free w start = false -> start < p).
Proof.
  intros [Hge _] Hleast Hfuel. split; [|split].
  - now apply find_available_port_returns.
  - intros Hfree. destruct Hleast as (Hr & _ & Hl).
    destruct (Z.eq_dec p start) as [|Hne]; [assumption|].
    rewrite (Hl start) in Hfree by lia. discriminate.
  - intros Hbusy. destruct Hleast as (Hr & Hf & _).
    destruct (Z.eq_dec p start) as [->|Hne]; [|lia].
    rewrite Hf in Hbusy. discriminate.
Qed.

Lemma find_available_port_least_witness :
  find_available_port sample_world 5 8080 st0 =
    Ret 8082 (after_binds st0 8080 3) /\
  (port_free sample_world 8080 = true -> 8082 = 8080) /\
  (port_free sample_world 8080 = false -> 8080 < 8082).
Proof.
  apply (find_available_port_least sample_world 8080 8082 5 st0).
  - unfold is_port. lia.
  - unfold least_free. split; [lia|]. split; [reflexivity|].
    intros q Hq. simpl. apply Z.leb_gt. lia.
  - simpl. lia.
Defined.

(** C6, as stated, fails: with no free port the search does not run for
    ever.  With every port taken, the scan from 65535 ends at its second
    candidate, 65536, which [bind] rejects with [OverflowError]. *)
Lemma find_available_port_crowded_stops :
  ~ (forall (w : World) (start : Z),
        (forall q, start <= q -> port_free w q = false) ->
        forall fuel s, find_available_port w fuel start s = OutOfFuel).
Proof.
  intros H.
  specialize (H crowded_world 65535 (fun _ _ => eq_refl) 2%nat st0).
  vm_compute in H. discriminate H.
Qed.

(** C6, amended.  [find_available_port] always ends.  From a starting port
    number it returns, the least free port, exactly when some port from the
    start up to 65535 is free; when none is, it has tried each of them and
    then 65536, on which [bind] raises [OverflowError], an exception the
    [except socket.error] clause lets through. *)
Theorem find_available_port_ends w start fuel s :
  is_port start ->
  (Z.to_nat (65536 - start) < fuel)%nat ->
  (exists p, least_free w start p /\
             find_available_port w fuel start s =
             Ret p (after_binds s start (S (Z.to_nat (p - start)))))
  \/
  ((forall q, start <= q <= 65535 -> port_free w q = false) /\
   find_available_port w fuel start s =
   Exc OverflowError (after_binds s start (S (Z.to_nat (65536 - start))))).
Proof.
  intros [Hge Hle] Hfuel.
  apply find_available_port_scan; [assumption| |assumption].
  rewrite Z2Nat.id; lia.
Qed.

Lemma find_available_port_ends_witness :
  (exists p, least_free crowded_world 65535 p /\
             find_available_port crowded_world 2 65535 st0 =
             Ret p (after_binds st0 65535 (S (Z.to_nat (p - 65535)))))
  \/
  ((forall q, 65535 <= q <= 65535 -> port_free crowded_world q = false) /\
   find_available_port crowded_world 2 65535 st0 =
   Exc OverflowError (after_binds st0 65535 2)).
Proof.
  apply (find_available_port_ends crowded_world 65535 2 st0).
  - unfold is_port. lia.
  - simpl. lia.
Defined.

(** ** Lemmas on the shutdown client and the poller *)

Lemma stop_action_server_runs w url s :
  stop_action_server w url s =
  shutdown_result (http_post w (url ++ "/api/shutdown"))
    (emit (EvPost (url ++ "/api/shutdown") shutdown_headers) s).
Proof.
  unfold stop_action_server, bind, try_except, sema4ai_http_post, ret.
  destruct (http_post w (url ++ "/api/shutdown")) as [code text| |]; simpl.
  - destruct (code =? 200); reflexivity.
  - reflexivity.
  - reflexivity.
Qed.

Lemma elapsed_gt_true now start_time timeout :
  (timeout < now - start_time)%Q -> elapsed_gt now start_time timeout = true.
Proof.
  intros H. unfold elapsed_gt.
  destruct (Qle_bool (now - start_time) timeout) eqn:E; [|reflexivity].
  apply Qle_bool_iff in E. exfalso. exact (Qlt_not_le _ _ H E).
Qed.

Lemma elapsed_gt_false now start_time timeout :
  (now - start_time <= timeout)%Q -> elapsed_gt now start_time timeout = false.
Proof.
  intros H. unfold elapsed_gt. apply Qle_bool_iff in H. now rewrite H.
Qed.

Lemma scan_lines_quiet w url lines s :
  forallb (quiet_line url) lines = true ->
  scan_lines w url lines s = Ret None s.
Proof.
  induction lines as [|line rest IH]; simpl; intros H; [reflexivity|].
  apply andb_true_iff in H as [Hline Hrest].
  apply andb_true_iff in Hline as [Hurl Herr].
  apply negb_true_iff in Hurl, Herr. rewrite Hurl, Herr. now apply IH.
Qed.

(** The first line with the URL wins when no line before it has the error
    marker. *)
Lemma scan_lines_started w url pre line post s :
  Forall (fun l => str_in error_marker l = false) pre ->
  str_in url line = true ->
  scan_lines w url (pre ++ line :: post) s = Ret (Some (started_message url)) s.
Proof.
  intros Hpre Hline. induction Hpre as [|l pre Hl _ IH]; simpl.
  - now rewrite Hline.
  - destruct (str_in url l); [reflexivity|]. now rewrite Hl.
Qed.

(** The first line with the error marker wins when neither it nor a line
    before it has the URL. *)
Lemma scan_lines_failed w url pre line post s :
  Forall (fun l => str_in url l = false) pre ->
  str_in url line = false ->
  str_in error_marker line = true ->
  scan_lines w url (pre ++ line :: post) s =
  Ret (Some (failed_message (child_stdout w) (child_stderr w)))
      (emit EvReadStderr (emit EvReadStdout s)).
Proof.
  intros Hpre Hurl Herr. induction Hpre as [|l pre Hl _ IH]; simpl.
  - now rewrite Hurl, Herr.
  - rewrite Hl. destruct (str_in error_marker l); [reflexivity|]. exact IH.
Qed.

Lemma poll_loop_unfold w fuel timeout start_time url dir s :
  poll_loop w (S fuel) timeout start_time url dir s =
  let s1 := mkSt (S (clock_reads s)) (log_reads s) (trace s ++ [EvTime]) in
  if elapsed_gt (clock w (clock_reads s)) start_time timeout then
    match http_post w (url ++ "/api/shutdown") with
    | Unreachable =>
        Exc MaxRetryError
            (emit (EvPost (url ++ "/api/shutdown") shutdown_headers) s1)
    | _ =>
        Ret (timed_out_message (child_stdout w) (child_stderr w))
            (emit EvReadStderr
               (emit EvReadStdout
                  (emit (EvPost (url ++ "/api/shutdown") shutdown_headers) s1)))
    end
  else
    let s2 := mkSt (S (clock_reads s)) (S (log_reads s))
                   ((trace s ++ [EvTime]) ++ [EvReadLog dir]) in
    match
      match log_file w dir (log_reads s) with
      | Some lines => scan_lines w url lines s2
      | None => Ret None s2
      end
    with
    | Ret (Some message) s3 => Ret message s3
    | Ret None s3 =>
        poll_loop w fuel timeout start_time url dir (emit EvSleep s3)
    | Exc e s3 => Exc e s3
    | OutOfFuel => OutOfFuel
    end.
Proof.
  simpl. unfold bind at 1. unfold time_time at 1. cbv zeta.
  destruct (elapsed_gt (clock w (clock_reads s)) start_time timeout).
  - unfold bind at 1. rewrite stop_action_server_runs.
    destruct (http_post w (url ++ "/api/shutdown")) as [code text| |]; simpl;
      [destruct (code =? 200)| |]; reflexivity.
  - unfold bind at 1. unfold bind at 1. unfold read_log at 1. simpl.
    destruct (log_file w dir (log_reads s)) as [lines|].
    + unfold bind at 1.
      destruct (scan_lines w url lines _) as [[message|] s3|e s3|];
        reflexivity.
    + reflexivity.
Qed.

(** [k] quiet iterations in a row leave the loop where it was, [k] clock
    readings and log polls later. *)
Lemma poll_loop_quiet w timeout start_time url dir :
  forall (k fuel : nat) (s : St),
    (forall j, (j < k)%nat ->
       elapsed_gt (clock w (clock_reads s + j)) start_time timeout = false /\
       quiet_log url (log_file w dir (log_reads s + j)) = true) ->
    poll_loop w (k + fuel) timeout start_time url dir s =
    poll_loop w fuel timeout start_time url dir
      (mkSt (clock_reads s + k) (log_reads s + k)
            (trace s ++ quiet_events dir k)).
Proof.
  induction k as [|k IH]; intros fuel s Hquiet.
  - simpl. rewrite !Nat.add_0_r, app_nil_r. now destruct s.
  - change (S k + fuel)%nat with (S (k + fuel)).
    rewrite poll_loop_unfold. cbv zeta.
    destruct (Hquiet 0%nat ltac:(lia)) as [Htime Hlog].
    rewrite Nat.add_0_r in Htime, Hlog. rewrite Htime.
    assert (Hscan :
      match log_file w dir (log_reads s) with
      | Some lines =>
          scan_lines w url lines
            (mkSt (S (clock_reads s)) (S (log_reads s))
                  ((trace s ++ [EvTime]) ++ [EvReadLog dir]))
      | None =>
          Ret None (mkSt (S (clock_reads s)) (S (log_reads s))
                         ((trace s ++ [EvTime]) ++ [EvReadLog dir]))
      end
      = Ret None (mkSt (S (clock_reads s)) (S (log_reads s))
                       ((trace s ++ [EvTime]) ++ [EvReadLog dir]))).
    { destruct (log_file w dir (log_reads s)) as [lines|]; [|reflexivity].
      now apply scan_lines_quiet. }
    rewrite Hscan. rewrite IH.
    + unfold emit; simpl. f_equal. f_equal; try lia.
      now rewrite <- !app_assoc.
    + intros j Hj. unfold emit; simpl.
      destruct (Hquiet (S j) ltac:(lia)) as [Ht Hl].
      rewrite Nat.add_succ_r in Ht, Hl. now split.
Qed.

(** A run with an existing directory and a free port gets to iteration [k]
    of the loop when the iterations before it are quiet. *)
Lemma start_action_server_reaches w name secrets p k fuel :
  path_exists w (get_action_package_path w name) = true ->
  least_free w 8080 p ->
  reaches_tick w (base_url p) (get_action_package_path w name) k ->
  (Z.to_nat (p - 8080) < k + fuel)%nat ->
  start_action_server w (k + fuel) name secrets st0 =
  poll_loop w fuel 60 (clock w 0%nat) (base_url p)
    (get_action_package_path w name)
    (mkSt (S k) k
          (launch_events w (get_action_package_path w name) p secrets
           ++ quiet_events (get_action_package_path w name) k)).
Proof.
  intros Hdir Hfree Hreach Hfuel.
  unfold start_action_server. cbv zeta.
  set (dir := get_action_package_path w name) in *.
  unfold bind at 1. unfold os_path_exists at 1. rewrite Hdir.
  cbn [negb]. cbv beta iota. unfold bind at 1. cbv beta.
  rewrite (find_available_port_returns w 8080 p) by (assumption || lia).
  unfold bind at 1. unfold subprocess_Popen at 1.
  unfold bind at 1. unfold time_time at 1.
  unfold bind at 1. unfold time_sleep at 1.
  rewrite poll_loop_quiet.
  - f_equal. unfold after_binds, emit, launch_events, spawn_flags; simpl.
    f_equal. f_equal. rewrite <- !app_assoc. reflexivity.
  - intros j Hj. specialize (Hreach j Hj). unfold tick_quiet in Hreach.
    apply andb_true_iff in Hreach as [Ht Hl]. apply negb_true_iff in Ht.
    simpl. split; assumption.
Qed.

(** ** What a returning run has spawned *)

Lemma find_available_port_inv w :
  forall (fuel : nat) (start : Z) (s : St) (p : Z) (s' : St),
    0 <= start ->
    find_available_port w fuel start s = Ret p s' ->
    least_free w start p /\
    s' = after_binds s start (S (Z.to_nat (p - start))).
Proof.
  induction fuel as [|fuel IH]; intros start s p s' Hge Hrun;
    [discriminate Hrun|].
  rewrite find_available_port_unfold in Hrun. cbv zeta in Hrun.
  destruct ((start <? 0) || (65535 <? start))%bool eqn:Hrange;
    [discriminate Hrun|].
  apply orb_false_iff in Hrange as [_ Hle]. apply Z.ltb_ge in Hle.
  destruct (port_free w start) eqn:Hfree.
  - inversion Hrun; subst. split.
    + repeat split; try lia. assumption.
    + now rewrite Z.sub_diag.
  - apply IH in Hrun as [(Hr & Hf & Hl) ->]; [|lia]. split.
    + repeat split; try lia; [assumption|].
      intros q Hq. destruct (Z.eq_dec q start) as [->|]; [assumption|].
      apply Hl; lia.
    + rewrite after_binds_step. do 2 f_equal.
      replace (p - start) with (Z.succ (p - (start + 1))) by lia.
      rewrite Z2Nat.inj_succ by lia. reflexivity.
Qed.

Lemma filter_popen_binds start n : filter is_popen (bind_events start n) = [].
Proof.
  revert start. induction n as [|n IH]; intros start; simpl; auto.
Qed.

Lemma filter_post_binds start n : filter is_post (bind_events start n) = [].
Proof.
  revert start. induction n as [|n IH]; intros start; simpl; auto.
Qed.

Lemma filter_post_quiet dir k : filter is_post (quiet_events dir k) = [].
Proof.
  induction k as [|k IH]; simpl; auto.
Qed.

Lemma filter_drain_binds start n : filter is_drain (bind_events start n) = [].
Proof.
  revert start. induction n as [|n IH]; intros start; simpl; auto.
Qed.

Lemma filter_drain_quiet dir k : filter is_drain (quiet_events dir k) = [].
Proof.
  induction k as [|k IH]; simpl; auto.
Qed.

Lemma scan_lines_spawns w url lines s r s' :
  scan_lines w url lines s = Ret r s' ->
  filter is_popen (trace s') = filter is_popen (trace s).
Proof.
  induction lines as [|line rest IH]; simpl; intros H.
  - now inversion H.
  - destruct (str_in url line); [now inversion H|].
    destruct (str_in error_marker line); [|now apply IH].
    inversion H; subst. simpl. rewrite <- app_assoc, filter_app. simpl.
    now rewrite app_nil_r.
Qed.

Lemma poll_loop_spawns w timeout start_time url dir :
  forall (fuel : nat) (s : St) (message : string) (s' : St),
    poll_loop w fuel timeout start_time url dir s = Ret message s' ->
    filter is_popen (trace s') = filter is_popen (trace s).
Proof.
  induction fuel as [|fuel IH]; intros s message s' H; [discriminate H|].
  rewrite poll_loop_unfold in H. cbv zeta in H.
  destruct (elapsed_gt _ _ _).
  - destruct (http_post w _); try discriminate H;
      inversion H; subst; simpl; rewrite <- !app_assoc, filter_app; simpl;
      now rewrite app_nil_r.
  - assert (Hs2 : forall r s3,
      match log_file w dir (log_reads s) with
      | Some lines =>
          scan_lines w url lines
            (mkSt (S (clock_reads s)) (S (log_reads s))
                  ((trace s ++ [EvTime]) ++ [EvReadLog dir]))
      | None =>
          Ret None (mkSt (S (clock_reads s)) (S (log_reads s))
                         ((trace s ++ [EvTime]) ++ [EvReadLog dir]))
      end = Ret r s3 ->
      filter is_popen (trace s3) = filter is_popen (trace s)).
    { intros r s3 E.
      assert (E' : filter is_popen (trace s3) =
                   filter is_popen ((trace s ++ [EvTime]) ++ [EvReadLog dir])).
      { destruct (log_file w dir (log_reads s)) as [lines|].
        - now apply scan_lines_spawns in E.
        - now inversion E. }
      rewrite E', <- app_assoc, filter_app. simpl. now rewrite app_nil_r. }
    destruct (match log_file w dir (log_reads s) with
              | Some lines => _ | None => _ end) as [[m|] s3|e s3|] eqn:E;
      try discriminate H.
    + inversion H; subst. exact (Hs2 _ _ eq_refl).
    + apply IH in H. rewrite H. unfold emit; simpl.
      rewrite filter_app. simpl. rewrite app_nil_r. exact (Hs2 _ _ eq_refl).
Qed.

(** ** The launcher and the poller *)

Ltac free_from_8080 :=
  unfold least_free; split; [lia|]; split; [reflexivity|];
  intros q Hq; simpl; first [exfalso; lia | apply Z.leb_gt; lia].

(** C1.  When the resolved package directory does not exist,
    [start_action_server] returns the message that the package path does
    not exist, and the existence test is all it has done: no port is tried,
    no child process is spawned, the clock and the log are not read. *)
Theorem start_action_server_missing_directory w fuel name secrets s :
  path_exists w (get_action_package_path w name) = false ->
  start_action_server w fuel name secrets s =
  Ret ("Action package '" ++ get_action_package_path w name
       ++ "' does not exist.")
      (mkSt (clock_reads s) (log_reads s)
            (trace s ++ [EvPathExists (get_action_package_path w name)])).
Proof.
  intros Hdir. unfold start_action_server. cbv zeta.
  unfold bind at 1. unfold os_path_exists at 1. rewrite Hdir. reflexivity.
Qed.

Lemma start_action_server_missing_directory_witness :
  start_action_server empty_world 0 "pkgA" "{}" st0 =
  Ret "Action package '/home/u/actions_bootstrapper/pkgA' does not exist."
      (mkSt 0 0 [EvPathExists "/home/u/actions_bootstrapper/pkgA"]).
Proof.
  apply (start_action_server_missing_directory empty_world 0 "pkgA" "{}" st0).
  reflexivity.
Defined.

(** C2.  When the loop gets to a poll tick that is within the 60 seconds
    and at which the log file exists and has a line containing the base
    URL, with no line before it containing the error marker,
    [start_action_server] returns "Action Server started at " followed by
    that URL, whatever the other lines are. *)
Theorem start_action_server_started w name secrets p k fuel pre line post :
  path_exists w (get_action_package_path w name) = true ->
  least_free w 8080 p ->
  reaches_tick w (base_url p) (get_action_package_path w name) k ->
  (clock w (S k) - clock w 0%nat <= 60)%Q ->
  log_file w (get_action_package_path w name) k = Some (pre ++ line :: post)%list ->
  Forall (fun l => str_in error_marker l = false) pre ->
  str_in (base_url p) line = true ->
  (k + Z.to_nat (p - 8080) < fuel)%nat ->
  exists s',
    start_action_server w fuel name secrets st0 =
    Ret ("Action Server started at " ++ base_url p) s'.
Proof.
  intros Hdir Hfree Hreach Htime Hlog Hpre Hline Hfuel.
  replace fuel with (k + S (fuel - k - 1))%nat by lia.
  rewrite (start_action_server_reaches w name secrets p k) by (assumption || lia).
  rewrite poll_loop_unfold. cbv zeta. simpl clock_reads. simpl log_reads.
  rewrite (elapsed_gt_false _ _ _ Htime), Hlog.
  rewrite (scan_lines_started w _ pre line post) by assumption.
  eexists. reflexivity.
Qed.

Lemma start_action_server_started_witness :
  exists s',
    start_action_server sample_world 10 "pkgA" "{}" st0 =
    Ret ("Action Server started at " ++ base_url 8082) s'.
Proof.
  apply (start_action_server_started sample_world "pkgA" "{}" 8082 2 10
           ["starting" ++ nl]
           ("Action Server running at http://localhost:8082" ++ nl) []).
  - reflexivity.
  - free_from_8080.
  - intros j Hj. destruct j as [|[|j]]; [reflexivity|reflexivity|lia].
  - vm_compute. discriminate.
  - reflexivity.
  - repeat constructor.
  - reflexivity.
  - simpl. lia.
Defined.

(** C3.  When the loop gets to a poll tick, within the 60 seconds, at which
    the log has a line containing "Error executing action-server" before
    any line containing the base URL, [start_action_server] returns the
    failure message with the child's stdout and stderr in it, and that is
    not the success message, whatever follows the line in the file. *)
Theorem start_action_server_failed w name secrets p k fuel pre line post :
  path_exists w (get_action_package_path w name) = true ->
  least_free w 8080 p ->
  reaches_tick w (base_url p) (get_action_package_path w name) k ->
  (clock w (S k) - clock w 0%nat <= 60)%Q ->
  log_file w (get_action_package_path w name) k = Some (pre ++ line :: post)%list ->
  Forall (fun l => str_in (base_url p) l = false) pre ->
  str_in (base_url p) line = false ->
  str_in "Error executing action-server" line = true ->
  (k + Z.to_nat (p - 8080) < fuel)%nat ->
  (exists s',
     start_action_server w fuel name secrets st0 =
     Ret ("Failed to start." ++ nl ++ nl ++ "Stdout:" ++ nl ++ child_stdout w
          ++ nl ++ nl ++ "Stderr:" ++ nl ++ child_stderr w) s') /\
  (forall s',
     start_action_server w fuel name secrets st0 <>
     Ret (started_message (base_url p)) s').
Proof.
  intros Hdir Hfree Hreach Htime Hlog Hpre Hurl Herr Hfuel.
  assert (Hrun : exists s',
    start_action_server w fuel name secrets st0 =
    Ret (failed_message (child_stdout w) (child_stderr w)) s').
  { replace fuel with (k + S (fuel - k - 1))%nat by lia.
    rewrite (start_action_server_reaches w name secrets p k)
      by (assumption || lia).
    rewrite poll_loop_unfold. cbv zeta. simpl clock_reads. simpl log_reads.
    rewrite (elapsed_gt_false _ _ _ Htime), Hlog.
    rewrite (scan_lines_failed w _ pre line post) by assumption.
    eexists. reflexivity. }
  split; [exact Hrun|].
  destruct Hrun as [s1 Hrun]. intros s' H. rewrite Hrun in H.
  inversion H.
Qed.

Lemma start_action_server_failed_witness :
  (exists s',
     start_action_server failing_world 10 "pkgA" "{}" st0 =
     Ret ("Failed to start." ++ nl ++ nl ++ "Stdout:" ++ nl ++ "out"
          ++ nl ++ nl ++ "Stderr:" ++ nl ++ "err") s') /\
  (forall s',
     start_action_server failing_world 10 "pkgA" "{}" st0 <>
     Ret (started_message (base_url 8080)) s').
Proof.
  apply (start_action_server_failed failing_world "pkgA" "{}" 8080 0 10
           ["starting" ++ nl]
           ("Error executing action-server: exit 1" ++ nl)
           ["Action Server running at http://localhost:8080" ++ nl]).
  - reflexivity.
  - free_from_8080.
  - intros j Hj. lia.
  - vm_compute. discriminate.
  - reflexivity.
  - repeat constructor.
  - reflexivity.
  - reflexivity.
  - simpl. lia.
Defined.

(** C4.  When no poll tick within the 60 seconds finds the URL or the error
    marker in the log, then at the first tick past the 60 seconds
    [start_action_server] sends exactly one shutdown request, the POST of
    [stop_action_server] on the candidate URL.  When the POST gets a
    response, or breaks with [ConnectionError], the run returns the timeout
    message with the child's stdout and stderr in it, as the claim says.
    When nothing listens at the URL, which is how a server that did not
    come up looks, the POST raises [MaxRetryError]; [stop_action_server]
    does not catch it and [start_action_server] calls it unguarded, so the
    run raises: no message is returned and the pipes are not read. *)
Theorem start_action_server_times_out w name secrets p k fuel :
  path_exists w (get_action_package_path w name) = true ->
  least_free w 8080 p ->
  reaches_tick w (base_url p) (get_action_package_path w name) k ->
  (60 < clock w (S k) - clock w 0%nat)%Q ->
  (k + Z.to_nat (p - 8080) < fuel)%nat ->
  exists s',
    filter is_post (trace s') =
      [EvPost (base_url p ++ "/api/shutdown")
              [("Content-Type", "application/json")]] /\
    match http_post w (base_url p ++ "/api/shutdown") with
    | Unreachable =>
        start_action_server w fuel name secrets st0 = Exc MaxRetryError s' /\
        filter is_drain (trace s') = []
    | _ =>
        start_action_server w fuel name secrets st0 =
        Ret ("Process timed out." ++ nl ++ nl ++ "Stdout:" ++ nl
             ++ child_stdout w ++ nl ++ nl ++ "Stderr:" ++ nl
             ++ child_stderr w) s'
    end.
Proof.
  intros Hdir Hfree Hreach Htime Hfuel.
  replace fuel with (k + S (fuel - k - 1))%nat by lia.
  rewrite (start_action_server_reaches w name secrets p k) by (assumption || lia).
  rewrite poll_loop_unfold. cbv zeta. simpl clock_reads.
  rewrite (elapsed_gt_true _ _ _ Htime).
  destruct (http_post w (base_url p ++ "/api/shutdown")) as [code text| |];
    eexists;
    (split; [|first [reflexivity | split; [reflexivity|]]]);
    unfold emit, launch_events; simpl;
    rewrite <- ?app_assoc, ?filter_app, ?filter_post_binds, ?filter_post_quiet,
      ?filter_drain_binds, ?filter_drain_quiet;
    reflexivity.
Qed.

Lemma start_action_server_times_out_witness :
  exists s',
    filter is_post (trace s') =
      [EvPost (base_url 8080 ++ "/api/shutdown")
              [("Content-Type", "application/json")]] /\
    (start_action_server unreachable_world 10 "pkgA" "{}" st0 =
       Exc MaxRetryError s' /\
     filter is_drain (trace s') = []).
Proof.
  apply (start_action_server_times_out unreachable_world "pkgA" "{}" 8080 1 10).
  - reflexivity.
  - free_from_8080.
  - intros j Hj. destruct j as [|j]; [reflexivity|lia].
  - vm_compute. reflexivity.
  - simpl. lia.
Defined.

(** C7.  [stop_action_server] posts to the URL followed by "/api/shutdown".
    On status 200 it returns the success message and on any other status
    the failure message.  When the POST raises [ConnectionError], the class
    the [except] clause names, it returns "Could not connect to the server".
    But when the connection cannot be established because nothing listens
    at the URL, the POST raises [MaxRetryError], which is not a
    [ConnectionError]: the clause does not catch it and the function raises
    to its caller, where the claim has it return the message. *)
Theorem stop_action_server_outcomes w url s :
  let target := url ++ "/api/shutdown" in
  let s' := emit (EvPost target [("Content-Type", "application/json")]) s in
  (http_post w target = Unreachable ->
   stop_action_server w url s = Exc MaxRetryError s') /\
  (http_post w target = ConnectionFailed ->
   sema4ai_http_post w target [("Content-Type", "application/json")] s =
     Exc ConnectionError s' /\
   stop_action_server w url s = Ret "Could not connect to the server" s') /\
  (forall text,
     http_post w target = Responded 200 text ->
     stop_action_server w url s =
     Ret "Successfully shutdown the action server" s') /\
  (forall status_code text,
     http_post w target = Responded status_code text ->
     status_code <> 200 ->
     stop_action_server w url s = Ret "Failed to stop the action server" s').
Proof.
  cbv zeta. rewrite stop_action_server_runs. unfold sema4ai_http_post.
  split; [|split; [|split]].
  - intros H. now rewrite H.
  - intros H. rewrite H. split; reflexivity.
  - intros text H. now rewrite H.
  - intros code text H Hcode. rewrite H. simpl.
    apply Z.eqb_neq in Hcode. now rewrite Hcode.
Qed.

Lemma stop_action_server_outcomes_witness :
  stop_action_server unreachable_world "http://localhost:8080" st0 =
    Exc MaxRetryError
        (mkSt 0 0 [EvPost "http://localhost:8080/api/shutdown"
                          [("Content-Type", "application/json")]]) /\
  stop_action_server silent_world "http://localhost:8080" st0 =
    Ret "Could not connect to the server"
        (mkSt 0 0 [EvPost "http://localhost:8080/api/shutdown"
                          [("Content-Type", "application/json")]]) /\
  stop_action_server (answering_world 200) "http://localhost:8080" st0 =
    Ret "Successfully shutdown the action server"
        (mkSt 0 0 [EvPost "http://localhost:8080/api/shutdown"
                          [("Content-Type", "application/json")]]) /\
  stop_action_server (answering_world 503) "http://localhost:8080" st0 =
    Ret "Failed to stop the action server"
        (mkSt 0 0 [EvPost "http://localhost:8080/api/shutdown"
                          [("Content-Type", "application/json")]]).
Proof.
  split; [|split; [|split]].
  - apply (proj1 (stop_action_server_outcomes
                    unreachable_world "http://localhost:8080" st0)).
    reflexivity.
  - apply (proj1 (proj2 (stop_action_server_outcomes
                           silent_world "http://localhost:8080" st0))).
    reflexivity.
  - apply (proj1 (proj2 (proj2 (stop_action_server_outcomes
                           (answering_world 200) "http://localhost:8080" st0)))
             "").
    reflexivity.
  - apply (proj2 (proj2 (proj2 (stop_action_server_outcomes
                           (answering_world 503) "http://localhost:8080" st0)))
             503 "").
    + reflexivity.
    + lia.
Defined.

(** C8.  A run of [start_action_server] with an existing package directory
    and a free port spawns the helper once, before it starts polling: the
    interpreter on the helper script with three arguments after it, in this
    order: the package directory, the chosen port in decimal, and the secrets
    string as it was given.  The polling spawns nothing more. *)
Theorem start_action_server_spawn_arguments w fuel name secrets p :
  path_exists w (get_action_package_path w name) = true ->
  least_free w 8080 p ->
  (Z.to_nat (p - 8080) < fuel)%nat ->
  let dir := get_action_package_path w name in
  let spawn :=
    EvPopen [sys_executable w; script_path w; dir; str_of_int p; secrets]
            (if String.eqb (os_name w) "nt" then 512 else 0) in
  start_action_server w fuel name secrets st0 =
    poll_loop w fuel 60 (clock w 0%nat) (base_url p) dir
      (mkSt 1 0 (EvPathExists dir
                 :: bind_events 8080 (S (Z.to_nat (p - 8080)))
                 ++ [spawn; EvTime; EvSleep])) /\
  (forall message s',
     start_action_server w fuel name secrets st0 = Ret message s' ->
     filter is_popen (trace s') = [spawn]).
Proof.
  intros Hdir Hfree Hfuel. cbv zeta.
  assert (Hrun := start_action_server_reaches w name secrets p 0 fuel Hdir Hfree).
  simpl in Hrun. rewrite app_nil_r in Hrun.
  rewrite Hrun by (assumption || (intros j Hj; lia)).
  split; [reflexivity|].
  intros message s' Hret. apply poll_loop_spawns in Hret. rewrite Hret.
  unfold launch_events. simpl.
  rewrite filter_app, filter_popen_binds. reflexivity.
Qed.

Lemma start_action_server_spawn_arguments_witness :
  let spawn :=
    EvPopen ["/usr/bin/python3"; "/app/start_action_server.py";
             "/home/u/actions_bootstrapper/pkgA"; "8082"; "{}"] 0 in
  start_action_server sample_world 10 "pkgA" "{}" st0 =
    poll_loop sample_world 10 60 0%Q "http://localhost:8082"
      "/home/u/actions_bootstrapper/pkgA"
      (mkSt 1 0 [EvPathExists "/home/u/actions_bootstrapper/pkgA";
                 EvBind 8080; EvBind 8081; EvBind 8082;
                 spawn; EvTime; EvSleep]) /\
  (forall message s',
     start_action_server sample_world 10 "pkgA" "{}" st0 = Ret message s' ->
     filter is_popen (trace s') = [spawn]).
Proof.
  apply (start_action_server_spawn_arguments sample_world 10 "pkgA" "{}" 8082).
  - reflexivity.
  - free_from_8080.
  - simpl. lia.
Defined.

(** C9.  When the first line of the log with a marker contains both the
    base URL and "Error executing action-server", [start_action_server]
    returns the success message: on each line the URL is looked for before
    the error marker. *)
Theorem start_action_server_mixed_line w name secrets p k fuel pre line post :
  path_exists w (get_action_package_path w name) = true ->
  least_free w 8080 p ->
  reaches_tick w (base_url p) (get_action_package_path w name) k ->
  (clock w (S k) - clock w 0%nat <= 60)%Q ->
  log_file w (get_action_package_path w name) k = Some (pre ++ line :: post)%list ->
  forallb (quiet_line (base_url p)) pre = true ->
  str_in (base_url p) line = true ->
  str_in "Error executing action-server" line = true ->
  (k + Z.to_nat (p - 8080) < fuel)%nat ->
  exists s',
    start_action_server w fuel name secrets st0 =
    Ret ("Action Server started at " ++ base_url p) s'.
Proof.
  intros Hdir Hfree Hreach Htime Hlog Hpre Hurl _ Hfuel.
  replace fuel with (k + S (fuel - k - 1))%nat by lia.
  rewrite (start_action_server_reaches w name secrets p k) by (assumption || lia).
  rewrite poll_loop_unfold. cbv zeta. simpl clock_reads. simpl log_reads.
  rewrite (elapsed_gt_false _ _ _ Htime), Hlog.
  rewrite (scan_lines_started w _ pre line post); [eexists; reflexivity| |assumption].
  apply Forall_forall. intros l Hl.
  rewrite forallb_forall in Hpre. specialize (Hpre l Hl).
  apply andb_true_iff in Hpre as [_ Herr]. now apply negb_true_iff in Herr.
Qed.

Lemma start_action_server_mixed_line_witness :
  exists s',
    start_action_server mixed_world 10 "pkgA" "{}" st0 =
    Ret ("Action Server started at " ++ base_url 8080) s'.
Proof.
  apply (start_action_server_mixed_line mixed_world "pkgA" "{}" 8080 0 10
           ["starting" ++ nl]
           ("Error executing action-server at http://localhost:8080" ++ nl)
           []).
  - reflexivity.
  - free_from_8080.
  - intros j Hj. lia.
  - vm_compute. discriminate.
  - reflexivity.
  - reflexivity.
  - reflexivity.
  - reflexivity.
  - simpl. lia.
Defined.

(** ** run_shell_command *)

Lemma append_empty_r (s : string) : s ++ "" = s.
Proof.
  induction s as [|c s IH]; simpl; [reflexivity|now rewrite IH].
Qed.

(** C10.  [run_shell_command] raises no [CalledProcessError]: whatever the
    exit code, it returns a [Response] whose result is the command's stdout
    followed by its stderr.  On a non-zero exit code [check_returncode] does
    raise the exception; the function catches it. *)
Theorem run_shell_command_returns w cmd cwd s :
  let r := subprocess_run w cmd cwd in
  let s' := emit (EvRun cmd cwd) s in
  run_shell_command w cmd cwd s =
    Ret (mkResponse (Some (stdout r ++ stderr r)) None) s' /\
  (returncode r <> 0 -> check_returncode r s' = Exc CalledProcessError s').
Proof.
  cbv zeta. split.
  - unfold run_shell_command, bind, run_process, try_except, check_returncode.
    assert (Hout :
      (if negb (String.eqb (stderr (subprocess_run w cmd cwd)) "")
       then stdout (subprocess_run w cmd cwd) ++ stderr (subprocess_run w cmd cwd)
       else stdout (subprocess_run w cmd cwd)) =
      stdout (subprocess_run w cmd cwd) ++ stderr (subprocess_run w cmd cwd)).
    { destruct (String.eqb_spec (stderr (subprocess_run w cmd cwd)) "") as [E|E];
        simpl; [|reflexivity].
      now rewrite E, append_empty_r. }
    rewrite Hout.
    destruct (returncode (subprocess_run w cmd cwd) =? 0); reflexivity.
  - intros Hcode. unfold check_returncode.
    apply Z.eqb_neq in Hcode. now rewrite Hcode.
Qed.

Lemma run_shell_command_returns_witness :
  run_shell_command sample_world ["rcc"; "task"; "testrun"] None st0 =
    Ret (mkResponse (Some "ab") None)
        (mkSt 0 0 [EvRun ["rcc"; "task"; "testrun"] None]) /\
  check_returncode (mkCompleted 1 "a" "b")
                   (mkSt 0 0 [EvRun ["rcc"; "task"; "testrun"] None]) =
    Exc CalledProcessError (mkSt 0 0 [EvRun ["rcc"; "task"; "testrun"] None]).
Proof.
  destruct (run_shell_command_returns sample_world
              ["rcc"; "task"; "testrun"] None st0) as [Hrun Hraise].
  split; [exact Hrun|]. apply Hraise. simpl. lia.
Defined.

(** ** The scenario of the specification *)

Example str_of_int_8080 : str_of_int 8080 = "8080".
Proof. reflexivity. Qed.

(** An absolute package name replaces the bootstrap folder in the joined
    path. *)
Example get_action_package_path_absolute :
  get_action_package_path sample_world "/tmp/pkgA" = "/tmp/pkgA" /\
  get_action_package_path sample_world "pkgA" =
    "/home/u/actions_bootstrapper/pkgA".
Proof. split; reflexivity. Qed.

(** The directory [/tmp/pkgA] exists, port 8080 is free, and the log has the
    line of the running server from the second poll on: the helper is
    spawned on [(/tmp/pkgA, 8080, "{}")] and the start reports the URL. *)
Example end_to_end_scenario :
  exists s',
    start_action_server
      (make_world true (fun _ => true) 1
         (fun n => match n with
                   | O => None
                   | _ => Some ["Action Server running at http://localhost:8080"
                                ++ nl]
                   end)
         ConnectionFailed)
      5 "/tmp/pkgA" "{}" st0 =
    Ret "Action Server started at http://localhost:8080" s' /\
    filter is_popen (trace s') =
    [EvPopen ["/usr/bin/python3"; "/app/start_action_server.py";
              "/tmp/pkgA"; "8080"; "{}"] 0].
Proof.
  eexists. split; [vm_compute; reflexivity|reflexivity].
Qed.

(** ** More on the port allocator *)

(** X1.  Whatever [find_available_port] returns is a port number, free, at
    or above the start, with every port between the start and it taken; the
    call has tried exactly the ports from the start to the returned one, in
    order, and nothing else. *)
Theorem find_available_port_sound w fuel start s p s' :
  find_available_port w fuel start s = Ret p s' ->
  is_port start /\ is_port p /\
  least_free w start p /\
  s' = mkSt (clock_reads s) (log_reads s)
            (trace s ++ bind_events start (S (Z.to_nat (p - start)))).
Proof.
  intros Hrun.
  assert (Hstart : is_port start).
  { destruct fuel as [|fuel]; [discriminate Hrun|].
    rewrite find_available_port_unfold in Hrun. cbv zeta in Hrun.
    destruct ((start <? 0) || (65535 <? start))%bool eqn:Hrange;
      [discriminate Hrun|].
    apply orb_false_iff in Hrange as [Hlo Hhi].
    apply Z.ltb_ge in Hlo, Hhi. split; assumption. }
  destruct (find_available_port_inv w fuel start s p s') as [Hleast ->];
    [apply Hstart|assumption|].
  pose proof Hleast as ([Hlo Hhi] & _ & _).
  split; [assumption|]. split; [unfold is_port in *; lia|].
  split; [assumption|reflexivity].
Qed.

Lemma find_available_port_sound_witness :
  is_port 8080 /\ is_port 8082 /\
  least_free sample_world 8080 8082 /\
  mkSt 0 0 [EvBind 8080; EvBind 8081; EvBind 8082] =
  mkSt 0 0 ([] ++ bind_events 8080 (S (Z.to_nat (8082 - 8080)))).
Proof.
  apply (find_available_port_sound sample_world 5 8080 st0 8082
           (mkSt 0 0 [EvBind 8080; EvBind 8081; EvBind 8082])).
  reflexivity.
Defined.

(** X2.  From a start that is not a port number, [find_available_port]
    raises [OverflowError] on its first bind, whatever ports are free. *)
Theorem find_available_port_out_of_range w fuel start s :
  start < 0 \/ 65535 < start ->
  find_available_port w (S fuel) start s =
  Exc OverflowError (mkSt (clock_reads s) (log_reads s) (trace s ++ [EvBind start])).
Proof.
  intros Hrange. rewrite find_available_port_unfold. cbv zeta.
  replace ((start <? 0) || (65535 <? start))%bool with true; [reflexivity|].
  symmetry. apply orb_true_iff.
  destruct Hrange; [left; apply Z.ltb_lt|right; apply Z.ltb_lt]; assumption.
Qed.

Lemma find_available_port_out_of_range_witness :
  find_available_port calm_world 1 (-1) st0 =
  Exc OverflowError (mkSt 0 0 [EvBind (-1)]).
Proof.
  apply (find_available_port_out_of_range calm_world 0 (-1) st0).
  left. lia.
Defined.

(** X3.  When the package directory exists and no port from 8080 to 65535
    is free, [start_action_server] ends with the [OverflowError] of the port
    scan: nothing is spawned, the clock and the log are not read. *)
Theorem start_action_server_no_port w fuel name secrets :
  path_exists w (get_action_package_path w name) = true ->
  (forall q, 8080 <= q <= 65535 -> port_free w q = false) ->
  (Z.to_nat (65536 - 8080) < fuel)%nat ->
  start_action_server w fuel name secrets st0 =
  Exc OverflowError
      (mkSt 0 0 (EvPathExists (get_action_package_path w name)
                 :: bind_events 8080 (S (Z.to_nat (65536 - 8080))))).
Proof.
  intros Hdir Hbusy Hfuel. unfold start_action_server. cbv zeta.
  unfold bind at 1. unfold os_path_exists at 1. rewrite Hdir.
  cbn [negb]. cbv beta iota. unfold bind at 1. cbv beta.
  destruct (find_available_port_scan w (Z.to_nat (65536 - 8080)) 8080 fuel
              (emit (EvPathExists (get_action_package_path w name)) st0))
    as [(p & (Hr & Hf & _) & _) | [_ Hrun]]; try lia.
  - rewrite (Hbusy p Hr) in Hf. discriminate Hf.
  - rewrite Hrun. reflexivity.
Qed.

Lemma start_action_server_no_port_witness :
  start_action_server crowded_world (Z.to_nat 57457) "pkgA" "{}" st0 =
  Exc OverflowError
      (mkSt 0 0 (EvPathExists (get_action_package_path crowded_world "pkgA")
                 :: bind_events 8080 (S (Z.to_nat (65536 - 8080))))).
Proof.
  apply (start_action_server_no_port crowded_world (Z.to_nat 57457) "pkgA" "{}").
  - reflexivity.
  - intros q Hq. reflexivity.
  - lia.
Defined.

(** ** What a run of the poller has done *)

Lemma scan_lines_cases w url lines s :
  scan_lines w url lines s = Ret None s \/
  scan_lines w url lines s = Ret (Some (started_message url)) s \/
  scan_lines w url lines s =
    Ret (Some (failed_message (child_stdout w) (child_stderr w)))
        (emit EvReadStderr (emit EvReadStdout s)).
Proof.
  induction lines as [|line rest IH]; simpl.
  - left. reflexivity.
  - destruct (str_in url line); [right; left; reflexivity|].
    destruct (str_in error_marker line); [right; right; reflexivity|].
    exact IH.
Qed.

Ltac filter_events :=
  unfold emit; simpl; rewrite ?filter_app; simpl;
  rewrite ?app_nil_r, <- ?app_assoc; simpl; try reflexivity.

Lemma poll_loop_outcome w timeout start_time url dir :
  forall (fuel : nat) (s : St) (message : string) (s' : St),
    poll_loop w fuel timeout start_time url dir s = Ret message s' ->
    loop_outcome w url (trace s) message (trace s').
Proof.
  induction fuel as [|fuel IH]; intros s message s' H; [discriminate H|].
  rewrite poll_loop_unfold in H. cbv zeta in H.
  destruct (elapsed_gt _ _ _).
  - destruct (http_post w _); try discriminate H;
      inversion H; subst; right; right;
      (split; [reflexivity|]); split; filter_events.
  - set (s2 := mkSt (S (clock_reads s)) (S (log_reads s))
                    ((trace s ++ [EvTime]) ++ [EvReadLog dir])) in *.
    assert (Hscan :
      forall r s3,
        match log_file w dir (log_reads s) with
        | Some lines => scan_lines w url lines s2
        | None => Ret None s2
        end = Ret r s3 ->
        (r = None /\ s3 = s2) \/
        (r = Some (started_message url) /\ s3 = s2) \/
        (r = Some (failed_message (child_stdout w) (child_stderr w)) /\
         s3 = emit EvReadStderr (emit EvReadStdout s2))).
    { intros r s3 E. destruct (log_file w dir (log_reads s)) as [lines|].
      - destruct (scan_lines_cases w url lines s2) as [C|[C|C]];
          rewrite C in E; inversion E; subst; auto.
      - inversion E; subst; auto. }
    destruct (match log_file w dir (log_reads s) with
              | Some lines => _ | None => _ end) as [[m|] s3|e s3|] eqn:E;
      try discriminate H.
    + inversion H; subst.
      destruct (Hscan _ _ eq_refl) as [[C _]|[[C ->]|[C ->]]];
        try discriminate C; inversion C; subst.
      * left. split; [reflexivity|]. split; filter_events.
      * right. left. split; [reflexivity|]. split; filter_events.
    + destruct (Hscan _ _ eq_refl) as [[_ ->]|[[C _]|[C _]]];
        try discriminate C.
      apply IH in H. unfold loop_outcome in *.
      replace (filter is_post (trace (emit EvSleep s2)))
        with (filter is_post (trace s)) in H by (subst s2; filter_events).
      replace (filter is_drain (trace (emit EvSleep s2)))
        with (filter is_drain (trace s)) in H by (subst s2; filter_events).
      exact H.
Qed.

(** X4.  A run of [start_action_server] that returns has returned one of
    four messages.  With the message of the missing directory it has only
    tested the path.  Otherwise a port was found, and: with the success
    message it has sent no shutdown request and has not read the child's
    pipes; with the failure message it has read both pipes and has sent no
    shutdown request; with the timeout message it has sent one shutdown
    request and has read both pipes. *)
Theorem start_action_server_outcomes w fuel name secrets message s' :
  start_action_server w fuel name secrets st0 = Ret message s' ->
  (message = not_exist_message (get_action_package_path w name) /\
   trace s' = [EvPathExists (get_action_package_path w name)]) \/
  (exists p,
     least_free w 8080 p /\
     ((message = started_message (base_url p) /\
       filter is_post (trace s') = [] /\
       filter is_drain (trace s') = []) \/
      (message = failed_message (child_stdout w) (child_stderr w) /\
       filter is_post (trace s') = [] /\
       filter is_drain (trace s') = [EvReadStdout; EvReadStderr]) \/
      (message = timed_out_message (child_stdout w) (child_stderr w) /\
       filter is_post (trace s') =
         [EvPost (base_url p ++ "/api/shutdown")
                 [("Content-Type", "application/json")]] /\
       filter is_drain (trace s') = [EvReadStdout; EvReadStderr]))).
Proof.
  intros Hrun. unfold start_action_server in Hrun. cbv zeta in Hrun.
  unfold bind at 1 in Hrun. unfold os_path_exists at 1 in Hrun.
  destruct (path_exists w (get_action_package_path w name)).
  - right. cbn [negb] in Hrun. cbv beta iota in Hrun.
    unfold bind at 1 in Hrun. cbv beta in Hrun.
    destruct (find_available_port w fuel 8080 _) as [p s1|e s1|] eqn:Hfind;
      try discriminate Hrun.
    apply find_available_port_inv in Hfind as [Hfree ->]; [|lia].
    exists p. split; [assumption|].
    unfold bind at 1 in Hrun. unfold subprocess_Popen at 1 in Hrun.
    unfold bind at 1 in Hrun. unfold time_time at 1 in Hrun.
    unfold bind at 1 in Hrun. unfold time_sleep at 1 in Hrun.
    match type of Hrun with
    | poll_loop _ _ _ _ _ _ ?s = _ => set (entry := s) in Hrun
    end.
    assert (Hp : filter is_post (trace entry) = []).
    { subst entry. unfold after_binds, emit. simpl.
      rewrite ?filter_app, ?filter_post_binds. reflexivity. }
    assert (Hd : filter is_drain (trace entry) = []).
    { subst entry. unfold after_binds, emit. simpl.
      rewrite ?filter_app, ?filter_drain_binds. reflexivity. }
    apply poll_loop_outcome in Hrun. unfold loop_outcome in Hrun.
    rewrite Hp, Hd in Hrun. exact Hrun.
  - left. inversion Hrun; subst. split; reflexivity.
Qed.

Lemma start_action_server_outcomes_witness :
  (failed_message "out" "err" =
     not_exist_message (get_action_package_path failing_world "pkgA") /\
   trace failing_run_end =
     [EvPathExists (get_action_package_path failing_world "pkgA")]) \/
  (exists p,
     least_free failing_world 8080 p /\
     ((failed_message "out" "err" = started_message (base_url p) /\
       filter is_post (trace failing_run_end) = [] /\
       filter is_drain (trace failing_run_end) = []) \/
      (failed_message "out" "err" =
         failed_message (child_stdout failing_world) (child_stderr failing_world) /\
       filter is_post (trace failing_run_end) = [] /\
       filter is_drain (trace failing_run_end) = [EvReadStdout; EvReadStderr]) \/
      (failed_message "out" "err" =
         timed_out_message (child_stdout failing_world)
                           (child_stderr failing_world) /\
       filter is_post (trace failing_run_end) =
         [EvPost (base_url p ++ "/api/shutdown")
                 [("Content-Type", "application/json")]] /\
       filter is_drain (trace failing_run_end) = [EvReadStdout; EvReadStderr]))).
Proof.
  apply (start_action_server_outcomes failing_world 10 "pkgA" "{}"
           (failed_message "out" "err") failing_run_end).
  vm_compute. reflexivity.
Defined.

(** Once a clock reading is past the timeout, the loop ends at that
    iteration at the latest: it returns, or the shutdown request of the
    timeout, with nothing listening, raises. *)
Lemma poll_loop_ends w timeout start_time url dir :
  forall (k fuel : nat) (s : St),
    elapsed_gt (clock w (clock_reads s + k)) start_time timeout = true ->
    (k < fuel)%nat ->
    exists s',
      (log_reads s' <= log_reads s + k)%nat /\
      ((exists message,
          poll_loop w fuel timeout start_time url dir s = Ret message s') \/
       (http_post w (url ++ "/api/shutdown") = Unreachable /\
        poll_loop w fuel timeout start_time url dir s = Exc MaxRetryError s')).
Proof.
  assert (Hlate : forall fuel s,
    elapsed_gt (clock w (clock_reads s)) start_time timeout = true ->
    exists s',
      (log_reads s' <= log_reads s)%nat /\
      ((exists message,
          poll_loop w (S fuel) timeout start_time url dir s = Ret message s') \/
       (http_post w (url ++ "/api/shutdown") = Unreachable /\
        poll_loop w (S fuel) timeout start_time url dir s =
        Exc MaxRetryError s'))).
  { intros fuel s H. rewrite poll_loop_unfold. cbv zeta. rewrite H.
    destruct (http_post w (url ++ "/api/shutdown")) as [code text| |];
      eexists; (split; [|first [left; eexists; reflexivity
                                |right; split; reflexivity]]);
      simpl; lia. }
  induction k as [|k IH]; intros fuel s Hk Hfuel;
    (destruct fuel as [|fuel]; [lia|]).
  - rewrite Nat.add_0_r in Hk.
    destruct (Hlate fuel s Hk) as (s' & Hle & Hend).
    exists s'. split; [lia|exact Hend].
  - destruct (elapsed_gt (clock w (clock_reads s)) start_time timeout) eqn:Hnow.
    + destruct (Hlate fuel s Hnow) as (s' & Hle & Hend).
      exists s'. split; [lia|exact Hend].
    + rewrite poll_loop_unfold. cbv zeta. rewrite Hnow.
      set (s2 := mkSt (S (clock_reads s)) (S (log_reads s))
                      ((trace s ++ [EvTime]) ++ [EvReadLog dir])).
      assert (Hscan :
        exists r s3,
          match log_file w dir (log_reads s) with
          | Some lines => scan_lines w url lines s2
          | None => Ret None s2
          end = Ret r s3 /\ log_reads s3 = S (log_reads s) /\
          clock_reads s3 = S (clock_reads s)).
      { destruct (log_file w dir (log_reads s)) as [lines|].
        - destruct (scan_lines_cases w url lines s2) as [C|[C|C]];
            rewrite C; eexists; eexists; repeat split.
        - eexists. eexists. repeat split. }
      destruct Hscan as (r & s3 & -> & Hlog & Hclock).
      destruct r as [message|].
      * exists s3. split; [lia|]. left. eexists. reflexivity.
      * destruct (IH fuel (emit EvSleep s3)) as (s' & Hle & Hend).
        -- simpl. rewrite Hclock. now rewrite Nat.add_succ_r in Hk.
        -- lia.
        -- exists s'. split; [simpl in Hle; lia|exact Hend].
Qed.

(** X5.  With an existing directory and a free port, a run of
    [start_action_server] ends as soon as a clock reading is more than 60
    seconds after the start, whatever the log holds: if that is reading
    [k + 1], the log has been read at most [k] times, and the run has
    returned a message or, when nothing listens for the shutdown request of
    the timeout, has raised [MaxRetryError]. *)
Theorem start_action_server_ends_by_timeout w name secrets p k fuel :
  path_exists w (get_action_package_path w name) = true ->
  least_free w 8080 p ->
  (60 < clock w (S k) - clock w 0%nat)%Q ->
  (k + Z.to_nat (p - 8080) < fuel)%nat ->
  exists s',
    (log_reads s' <= k)%nat /\
    ((exists message,
        start_action_server w fuel name secrets st0 = Ret message s') \/
     (http_post w (base_url p ++ "/api/shutdown") = Unreachable /\
      start_action_server w fuel name secrets st0 = Exc MaxRetryError s')).
Proof.
  intros Hdir Hfree Hlate Hfuel.
  assert (Hrun := start_action_server_reaches w name secrets p 0 fuel Hdir Hfree).
  simpl in Hrun. rewrite Hrun by ((intros j Hj; lia) || lia).
  match goal with
  | |- context [poll_loop _ _ _ _ _ _ ?entry] =>
      destruct (poll_loop_ends w 60 (clock w 0%nat) (base_url p)
                  (get_action_package_path w name) k fuel entry)
        as (s' & Hle & Hend)
  end.
  - simpl. now apply elapsed_gt_true.
  - lia.
  - exists s'. split; [simpl in Hle; lia|exact Hend].
Qed.

Lemma start_action_server_ends_by_timeout_witness :
  exists s',
    (log_reads s' <= 1)%nat /\
    ((exists message,
        start_action_server unreachable_world 10 "pkgA" "{}" st0 =
        Ret message s') \/
     (http_post unreachable_world (base_url 8080 ++ "/api/shutdown") =
        Unreachable /\
      start_action_server unreachable_world 10 "pkgA" "{}" st0 =
        Exc MaxRetryError s')).
Proof.
  apply (start_action_server_ends_by_timeout unreachable_world
           "pkgA" "{}" 8080 1 10).
  - reflexivity.
  - free_from_8080.
  - vm_compute. reflexivity.
  - simpl. lia.
Defined.

(** ** Substrings and paths *)

Lemma prefix_app (n h : string) :
  String.prefix n h = true <-> exists b, h = n ++ b.
Proof.
  revert h. induction n as [|c n IH]; intros h.
  - split; [intros _; exists h; reflexivity|intros _; destruct h; reflexivity].
  - destruct h as [|c' h]; simpl.
    + split; [discriminate|intros [b Hb]; discriminate Hb].
    + destruct (Ascii.ascii_dec c c') as [->|Hne].
      * rewrite IH. split; intros [b Hb]; exists b.
        -- now rewrite Hb.
        -- now inversion Hb.
      * split; [discriminate|]. intros [b Hb]. simpl in Hb. congruence.
Qed.

(** X6.  The test [needle in line] of the poller holds exactly when the
    line is some text, the needle, and some text: the URL and the error
    marker are found anywhere in a line, also as part of a longer word. *)
Theorem str_in_substring (needle hay : string) :
  str_in needle hay = true <-> exists a b, hay = a ++ needle ++ b.
Proof.
  induction hay as [|c hay IH]; cbn [str_in].
  - rewrite orb_false_r, prefix_app. split.
    + intros [b Hb]. exists "", b. exact Hb.
    + intros (a & b & Hab). destruct a as [|c a]; [|discriminate Hab].
      exists b. exact Hab.
  - rewrite orb_true_iff, IH, prefix_app. split.
    + intros [[b Hb]|(a & b & Hab)].
      * exists "", b. exact Hb.
      * exists (String c a), b. simpl. now rewrite Hab.
    + intros (a & b & Hab). destruct a as [|c' a].
      * left. exists b. exact Hab.
      * right. simpl in Hab. inversion Hab. exists a, b. reflexivity.
Qed.

Lemma endswith_sep_app (a b : string) :
  b <> "" -> endswith_sep (a ++ b) = endswith_sep b.
Proof.
  intros Hb. induction a as [|c a IH]; [reflexivity|].
  simpl. rewrite IH.
  destruct (a ++ b) eqn:E; [|reflexivity].
  destruct a; simpl in E; [contradiction|discriminate E].
Qed.

(** The bootstrap folder, as joined, is not empty and has no separator at
    its end. *)
Lemma bootstrap_folder_open_end (home : string) :
  os_path_join home "actions_bootstrapper" <> "" /\
  endswith_sep (os_path_join home "actions_bootstrapper") = false.
Proof.
  unfold os_path_join. simpl String.prefix. cbv iota.
  destruct (String.eqb home "" || endswith_sep home)%bool.
  - split.
    + destruct home; discriminate.
    + rewrite endswith_sep_app by discriminate. reflexivity.
  - split.
    + destruct home; discriminate.
    + rewrite endswith_sep_app by discriminate. reflexivity.
Qed.

(** X7.  A package name that begins with a separator is taken as the
    package path itself: the home directory and the bootstrap folder are
    dropped from it. *)
Theorem get_action_package_path_escapes w name :
  String.prefix "/" name = true ->
  get_action_package_path w name = name.
Proof.
  intros Habs. unfold get_action_package_path, os_path_join at 1.
  now rewrite Habs.
Qed.

Lemma get_action_package_path_escapes_witness :
  get_action_package_path sample_world "/etc" = "/etc".
Proof.
  apply (get_action_package_path_escapes sample_world "/etc"). reflexivity.
Defined.

(** X8.  For a package name that does not begin with a separator, the
    package path is the bootstrap folder, one separator and the name; an
    empty name gives the bootstrap folder with a separator at its end. *)
Theorem get_action_package_path_relative w name :
  String.prefix "/" name = false ->
  get_action_package_path w name =
  os_path_join (home_directory w) "actions_bootstrapper" ++ "/" ++ name.
Proof.
  intros Hrel. unfold get_action_package_path.
  destruct (bootstrap_folder_open_end (home_directory w)) as [Hne Hend].
  unfold os_path_join at 1. rewrite Hrel, Hend, orb_false_r.
  destruct (String.eqb_spec (os_path_join (home_directory w)
                                          "actions_bootstrapper") "");
    [contradiction|reflexivity].
Qed.

Lemma get_action_package_path_relative_witness :
  get_action_package_path sample_world "" =
  os_path_join (home_directory sample_world) "actions_bootstrapper" ++ "/" ++ "".
Proof.
  apply (get_action_package_path_relative sample_world ""). reflexivity.
Defined.

(** ** The actions that return the value of _run *)

Lemma run_shell_command_result w cmd cwd s :
  run_shell_command w cmd cwd s =
  Ret (mkResponse
         (Some (stdout (subprocess_run w cmd cwd)
                ++ stderr (subprocess_run w cmd cwd)))
         None)
      (emit (EvRun cmd cwd) s).
Proof.
  unfold run_shell_command, bind, run_process, try_except, check_returncode.
  destruct (String.eqb_spec (stderr (subprocess_run w cmd cwd)) "") as [E|E];
    simpl negb; cbv iota.
  - rewrite E, append_empty_r.
    destruct (returncode (subprocess_run w cmd cwd) =? 0); reflexivity.
  - destruct (returncode (subprocess_run w cmd cwd) =? 0); reflexivity.
Qed.

(** X9.  [run_robot] runs [rcc run -r robot_path/robot.yaml]: the task name
    it is given is in no argument of the command, so the response is the
    same for every task name.  Like [pull_template], [task_testrun],
    [unwrap_robot] and [script_in_robot], it runs one command, each value it
    is given being one argument, and returns the command's stdout followed
    by its stderr as the result, with no error, whatever the exit code. *)
Theorem run_actions_pass_through w s :
  let passes (m : M Response) (cmd : list string) :=
    m s = Ret (mkResponse
                 (Some (stdout (subprocess_run w cmd None)
                        ++ stderr (subprocess_run w cmd None)))
                 None)
              (mkSt (clock_reads s) (log_reads s) (trace s ++ [EvRun cmd None])) in
  (forall task_name robot_path,
     passes (run_robot w task_name robot_path)
            ["rcc"; "run"; "-r"; robot_path ++ "/robot.yaml"]) /\
  (forall task_name other_name robot_path,
     run_robot w task_name robot_path s = run_robot w other_name robot_path s) /\
  (forall repo_url directory,
     passes (pull_template w repo_url directory)
            ["rcc"; "pull"; repo_url; "-d"; directory]) /\
  passes (task_testrun w) ["rcc"; "task"; "testrun"] /\
  (forall artifact,
     passes (unwrap_robot w artifact)
            ["rcc"; "robot"; "unwrap"; "--artifact"; artifact]) /\
  (forall command,
     passes (script_in_robot w command) ["rcc"; "run"; "--"; command]).
Proof.
  cbv zeta.
  repeat split; intros;
    unfold run_robot, pull_template, task_testrun, unwrap_robot,
      script_in_robot, _run;
    rewrite ?run_shell_command_result; reflexivity.
Qed.

(** ** open_action_code *)

Lemma length_append (a b : string) :
  String.length (a ++ b) = (String.length a + String.length b)%nat.
Proof.
  induction a as [|c a IH]; simpl; [reflexivity|now rewrite IH].
Qed.

Lemma append_assoc (a b c : string) : a ++ (b ++ c) = (a ++ b) ++ c.
Proof.
  induction a as [|x a IH]; simpl; [reflexivity|now rewrite IH].
Qed.

(** Two texts that end differently are different. *)
Lemma tail_neq (x y a b : string) :
  String.length a = String.length b -> a <> b -> x ++ a <> y ++ b.
Proof.
  intros Hlen Hne. revert y.
  induction x as [|c x IH]; intros y H.
  - destruct y as [|c' y]; simpl in H; [contradiction|].
    apply (f_equal String.length) in H. simpl in H.
    rewrite length_append in H. lia.
  - destruct y as [|c' y]; simpl in H.
    + apply (f_equal String.length) in H. simpl in H.
      rewrite length_append in H. lia.
    + inversion H. now apply (IH y).
Qed.

Lemma missing_message_not_opened (name path : string) :
  "Error: Action package '" ++ name ++ "' does not exist at path "
    ++ path ++ "." <> opened_message name.
Proof.
  intros H. apply (f_equal String.length) in H. unfold opened_message in H.
  rewrite !length_append in H. simpl in H. lia.
Qed.

Lemma failed_message_not_opened (name : string) (status : Z) :
  "Error: Failed to open the action package '" ++ name ++ "' with VSCode. "
    ++ "Subprocess returned non-zero exit status " ++ str_of_int status
    ++ ". "
    ++ "Ensure VSCode is installed and the 'code' command is available in your PATH."
  <> opened_message name.
Proof.
  unfold opened_message.
  change "Ensure VSCode is installed and the 'code' command is available in your PATH."
    with ("Ensure VSCode is installed and the 'code' command i"
          ++ "s available in your PATH.").
  rewrite !append_assoc. apply tail_neq; [reflexivity|discriminate].
Qed.

Lemma not_found_message_not_opened (name : string) :
  "Error: 'code' command not found. "
    ++ "Ensure VSCode is installed and the 'code' command is available in your PATH."
  <> opened_message name.
Proof.
  unfold opened_message.
  change "Ensure VSCode is installed and the 'code' command is available in your PATH."
    with ("Ensure VSCode is installed and the 'code' command i"
          ++ "s available in your PATH.").
  rewrite !append_assoc. apply tail_neq; [reflexivity|discriminate].
Qed.

Lemma unexpected_message_not_opened (name text : string) :
  "Unexpected error: " ++ text ++ ". "
    ++ "Please check your setup and try again."
  <> opened_message name.
Proof.
  unfold opened_message.
  change "Please check your setup and try again."
    with ("Please check " ++ "your setup and try again.").
  rewrite !append_assoc. apply tail_neq; [reflexivity|discriminate].
Qed.

(** X10.  [open_action_code] always returns a message.  The message is the
    one of success, the package name followed by " code opened with
    VSCode.", exactly when the package directory exists, the [code] command
    could be launched on it and exited with status 0.  When the directory
    does not exist, no command is run. *)
Theorem open_action_code_opened w h name s :
  let path := get_action_package_path w name in
  exists message s',
    open_action_code w h name s = Ret message s' /\
    (message = name ++ " code opened with VSCode." <->
     path_exists w path = true /\
     launch_failure_of h ["code"; path] = None /\
     returncode (subprocess_run w ["code"; path] None) = 0) /\
    (path_exists w path = false ->
     trace s' = (trace s ++ [EvPathExists path])%list).
Proof.
  cbv zeta. unfold open_action_code. cbv zeta.
  unfold bind at 1. unfold os_path_exists at 1.
  destruct (path_exists w (get_action_package_path w name)); cbn [negb];
    cbv beta iota.
  - unfold bind at 1. unfold subprocess_run_check at 1. cbv beta.
    destruct (launch_failure_of h ["code"; get_action_package_path w name])
      as [[|text]|]; cbv beta iota.
    + eexists. eexists. split; [reflexivity|]. split; [|discriminate].
      split; [intros H|intros (_ & H & _); discriminate H].
      exfalso. exact (not_found_message_not_opened name H).
    + eexists. eexists. split; [reflexivity|]. split; [|discriminate].
      split; [intros H|intros (_ & H & _); discriminate H].
      exfalso. exact (unexpected_message_not_opened name text H).
    + destruct (Z.eqb_spec
                  (returncode (subprocess_run w
                     ["code"; get_action_package_path w name] None)) 0)
        as [Hzero|Hnonzero].
      * eexists. eexists. split; [reflexivity|]. split; [|discriminate].
        split; [intros _; auto|reflexivity].
      * eexists. eexists. split; [reflexivity|]. split; [|discriminate].
        split; [intros H|intros (_ & _ & H); contradiction].
        exfalso. exact (failed_message_not_opened name _ H).
  - eexists. eexists. split; [reflexivity|]. split; [|reflexivity].
    split; [intros H|intros (H & _); discriminate H].
    exfalso. exact (missing_message_not_opened name _ H).
Qed.

Lemma open_action_code_opened_witness :
  exists message s',
    open_action_code calm_world plain_host "pkgA" st0 = Ret message s' /\
    (message = "pkgA" ++ " code opened with VSCode." <->
     path_exists calm_world (get_action_package_path calm_world "pkgA") = true /\
     launch_failure_of plain_host
       ["code"; get_action_package_path calm_world "pkgA"] = None /\
     returncode (subprocess_run calm_world
       ["code"; get_action_package_path calm_world "pkgA"] None) = 0) /\
    (path_exists calm_world (get_action_package_path calm_world "pkgA") = false ->
     trace s' = ([] ++ [EvPathExists (get_action_package_path calm_world "pkgA")])%list).
Proof.
  exact (open_action_code_opened calm_world plain_host "pkgA" st0).
Defined.

(** ** The files of a package *)

Lemma universal_newlines_without_CR (s : string) :
  has_CR s = false -> universal_newlines s = s.
Proof.
  unfold has_CR. induction s as [|c s IH]; [reflexivity|].
  cbn [str_in]. intros H. apply orb_false_iff in H as [Hhead Htail].
  cbn [universal_newlines].
  destruct (Ascii.eqb_spec c CR) as [->|Hne].
  - exfalso. simpl in Hhead. destruct s; discriminate Hhead.
  - now rewrite IH.
Qed.

Lemma append_inj_l (p a b : string) : p ++ a = p ++ b -> a = b.
Proof.
  induction p as [|c p IH]; simpl; intros H; [assumption|].
  inversion H. now apply IH.
Qed.

(** The two files that the update actions write are different files. *)
Lemma package_files_differ w name :
  package_file_path w name "package.yaml" <> package_file_path w name "actions.py".
Proof.
  unfold package_file_path.
  set (dir := os_path_join _ name). unfold os_path_join. simpl String.prefix.
  cbv iota. destruct (String.eqb dir "" || endswith_sep dir)%bool; intros H.
  - apply append_inj_l in H. discriminate H.
  - apply append_inj_l in H. discriminate H.
Qed.

Lemma get_file_contents_written w h name file_name text d :
  get_file_contents w h name file_name
    (write_file d (package_file_path w name file_name) text) =
  mkResponse (Some (universal_newlines text)) None.
Proof.
  unfold get_file_contents, file_exists, read_file, write_file.
  cbv zeta. now rewrite String.eqb_refl.
Qed.

Lemma get_file_contents_other w h name file_name path text d :
  path <> package_file_path w name file_name ->
  get_file_contents w h name file_name (write_file d path text) =
  get_file_contents w h name file_name d.
Proof.
  intros Hne. unfold get_file_contents, file_exists, read_file, write_file.
  cbv zeta.
  destruct (String.eqb_spec (package_file_path w name file_name) path) as [E|E];
    [congruence|reflexivity].
Qed.

(** X11.  What [update_action_package_dependencies] has written,
    [get_file_contents] reads back from [package.yaml]: the result is the
    text that was given, with [\r\n] and [\r] read as [\n]; it is the very
    text when that has no [\r] in it. *)
Theorem update_action_package_dependencies_read_back w h name code d r d' :
  update_action_package_dependencies w h name code d = Wrote r d' ->
  get_file_contents w h name "package.yaml" d' =
    mkResponse (Some (universal_newlines code)) None /\
  (has_CR code = false ->
   get_file_contents w h name "package.yaml" d' = mkResponse (Some code) None).
Proof.
  unfold update_action_package_dependencies. cbv zeta.
  destruct (can_open_for_writing h _); [|discriminate].
  intros H. inversion H; subst. rewrite get_file_contents_written.
  split; [reflexivity|]. intros Hcr.
  now rewrite universal_newlines_without_CR.
Qed.

Lemma update_action_package_dependencies_read_back_witness :
  get_file_contents calm_world plain_host "pkgA" "package.yaml"
    (write_file no_writes (package_file_path calm_world "pkgA" "package.yaml")
                "name: pkgA") =
    mkResponse (Some (universal_newlines "name: pkgA")) None /\
  (has_CR "name: pkgA" = false ->
   get_file_contents calm_world plain_host "pkgA" "package.yaml"
     (write_file no_writes (package_file_path calm_world "pkgA" "package.yaml")
                 "name: pkgA") =
   mkResponse (Some "name: pkgA") None).
Proof.
  apply (update_action_package_dependencies_read_back calm_world plain_host
           "pkgA" "name: pkgA" no_writes
           (mkResponse
              (Some ("Successfully updated the package dependencies at: "
                     ++ package_file_path calm_world "pkgA" "package.yaml"))
              None)).
  reflexivity.
Defined.

(** X12.  [update_action_code] writes what black makes of the code: when
    black raises, the action raises and no file is touched; otherwise what
    [get_file_contents] then reads from [actions.py], its default file, is
    the formatted code. *)
Theorem update_action_code_read_back w h name code d :
  match black_format_str h code with
  | None => update_action_code w h name code d = WriteRaised FormatFailed d
  | Some formatted_code =>
      forall r d',
        update_action_code w h name code d = Wrote r d' ->
        get_file_contents w h name "actions.py" d' =
        mkResponse (Some (universal_newlines formatted_code)) None
  end.
Proof.
  unfold update_action_code.
  destruct (black_format_str h code) as [formatted_code|]; [|reflexivity].
  cbv zeta. intros r d'.
  destruct (can_open_for_writing h _); [|discriminate].
  intros H. inversion H; subst. apply get_file_contents_written.
Qed.

(** X13.  The two update actions do not disturb each other: after both have
    returned, in either order, [package.yaml] reads as the dependencies and
    [actions.py] as the formatted code. *)
Theorem package_files_independent w h name deps code formatted_code d :
  black_format_str h code = Some formatted_code ->
  let both d2 :=
    get_file_contents w h name "package.yaml" d2 =
      mkResponse (Some (universal_newlines deps)) None /\
    get_file_contents w h name "actions.py" d2 =
      mkResponse (Some (universal_newlines formatted_code)) None in
  (forall r1 d1 r2 d2,
     update_action_package_dependencies w h name deps d = Wrote r1 d1 ->
     update_action_code w h name code d1 = Wrote r2 d2 ->
     both d2) /\
  (forall r1 d1 r2 d2,
     update_action_code w h name code d = Wrote r1 d1 ->
     update_action_package_dependencies w h name deps d1 = Wrote r2 d2 ->
     both d2).
Proof.
  intros Hblack. cbv zeta.
  unfold update_action_package_dependencies, update_action_code.
  rewrite Hblack. cbv zeta.
  pose proof (package_files_differ w name) as Hdiff.
  split; intros r1 d1 r2 d2 H1 H2;
    destruct (can_open_for_writing h (package_file_path w name "package.yaml"));
    destruct (can_open_for_writing h (package_file_path w name "actions.py"));
    try discriminate H1; try discriminate H2;
    inversion H1; inversion H2; subst.
  - split.
    + rewrite get_file_contents_other by congruence.
      apply get_file_contents_written.
    + apply get_file_contents_written.
  - split.
    + apply get_file_contents_written.
    + rewrite get_file_contents_other by congruence.
      apply get_file_contents_written.
Qed.

Lemma package_files_independent_witness :
  let both d2 :=
    get_file_contents calm_world plain_host "pkgA" "package.yaml" d2 =
      mkResponse (Some (universal_newlines "name: pkgA")) None /\
    get_file_contents calm_world plain_host "pkgA" "actions.py" d2 =
      mkResponse (Some (universal_newlines "x = 1")) None in
  (forall r1 d1 r2 d2,
     update_action_package_dependencies calm_world plain_host "pkgA"
       "name: pkgA" no_writes = Wrote r1 d1 ->
     update_action_code calm_world plain_host "pkgA" "x = 1" d1 = Wrote r2 d2 ->
     both d2) /\
  (forall r1 d1 r2 d2,
     update_action_code calm_world plain_host "pkgA" "x = 1" no_writes =
       Wrote r1 d1 ->
     update_action_package_dependencies calm_world plain_host "pkgA"
       "name: pkgA" d1 = Wrote r2 d2 ->
     both d2).
Proof.
  apply (package_files_independent calm_world plain_host "pkgA"
           "name: pkgA" "x = 1" "x = 1" no_writes).
  reflexivity.
Defined.

(** X14.  A file name that begins with a separator is read as it is: the
    path does not depend on the package name, and [get_file_contents] gives
    the same response for every package name. *)
Theorem get_file_contents_absolute w h name other_name file_name d :
  String.prefix "/" file_name = true ->
  package_file_path w name file_name = file_name /\
  get_file_contents w h name file_name d =
  get_file_contents w h other_name file_name d.
Proof.
  intros Habs.
  assert (Hpath : forall n, package_file_path w n file_name = file_name).
  { intros n. unfold package_file_path, os_path_join at 1. now rewrite Habs. }
  split; [apply Hpath|].
  unfold get_file_contents. cbv zeta. now rewrite !Hpath.
Qed.

Lemma get_file_contents_absolute_witness :
  package_file_path calm_world "pkgA" "/etc/hosts" = "/etc/hosts" /\
  get_file_contents calm_world plain_host "pkgA" "/etc/hosts" no_writes =
  get_file_contents calm_world plain_host "pkgB" "/etc/hosts" no_writes.
Proof.
  apply (get_file_contents_absolute calm_world plain_host "pkgA" "pkgB"
           "/etc/hosts" no_writes).
  reflexivity.
Defined.
